(** * CCTA_3-4: the rate-governed Canvas client and the unpublished-course audit

    A shallow embedding of the Go sources of the repository:

    - [PkgCanvas]  embeds [pkg/canvas/main.go]   (the API manager, first revision);
    - [Part001]    embeds [unnamed/part_001]     (the API manager with header
                   defaults and jitter);
    - [CmdApp]     embeds [cmd/app/main.go]      (the audit driver that writes rows);
    - [Part002]    embeds [unnamed/part_002]     (the earlier audit driver).

    The inputs the properties are evaluated at are in [Scenarios]; the
    properties are in [AuditFacts] (one course), [CanvasFacts] (the API
    manager), [PaginationFacts] (the course listing) and [ReportFacts] (the
    rows and the file).

    Go's [float64] is the kernel's binary64 [float]; Go's [int], [int64] and
    [time.Duration] are [Z] with the 64-bit wrap-around written out; Go strings
    are byte strings, here [string]. *)

From Stdlib Require Import ZArith List String Ascii Bool Lia Floats DecimalString.
Import ListNotations.
Open Scope Z_scope.

(** ** Go primitives used by the sources *)

Module Go.

(** Two's complement wrap-around of a 64-bit signed integer. *)
Definition wrap64 (z : Z) : Z := (z + 2 ^ 63) mod 2 ^ 64 - 2 ^ 63.

(** [time.Duration]: an [int64] count of nanoseconds. *)
Definition Duration := Z.
Definition Nanosecond : Duration := 1.
Definition Millisecond : Duration := 1000000.
Definition Second : Duration := 1000000000.
Definition Minute : Duration := 60 * Second.

(** [a * b] and [a + b] on [int64]. *)
Definition mul64 (a b : Z) : Z := wrap64 (a * b).
Definition add64 (a b : Z) : Z := wrap64 (a + b).
(** [a / b] on integers truncates toward zero. *)
Definition div64 (a b : Z) : Z := wrap64 (Z.quot a b).

(** [float64(n)] for an integer [n]: the nearest binary64 value. *)
Definition float64_of_int (z : Z) : float :=
  SF2Prim (binary_normalize prec emax z 0 false).

(** What a header holds, as [strconv.ParseFloat(_, 64)] sees it. *)
Inductive header : Type :=
| Number (f : float)        (* a text the parser accepts, with its value *)
| Malformed                 (* absent or not a number: value 0, ErrSyntax *)
| OutOfRange (neg : bool).  (* too large: value +Inf or -Inf, ErrRange *)

(** [strconv.ParseFloat]: the value and whether [err != nil]. *)
Definition ParseFloat (h : header) : float * bool :=
  match h with
  | Number f => (f, false)
  | Malformed => (0%float, true)
  | OutOfRange neg => ((if neg then neg_infinity else infinity), true)
  end.

(** [rand.Int63n(n)]: panics when [n <= 0] ([None]); otherwise the accepted
    raw 63-bit draw reduced modulo [n]. *)
Definition Int63n (n raw : Z) : option Z :=
  if n <=? 0 then None else Some (raw mod n).

Definition StatusOK : Z := 200.
Definition StatusTooManyRequests : Z := 429.

End Go.

(** ** The API manager: types shared by both revisions *)

Module Canvas.
Import Go.

(** [APIManager], without the client, the logger and the configuration. *)
Record APIManager : Type := mkAPI {
  maxRateLimit : Z;
  rateLimitRemaining : float;
  averageRateCost : float;
  requestSendCount : Z;
  responseReceivedCount : Z
}.

Definition set_rateLimitRemaining (v : float) (a : APIManager) : APIManager :=
  mkAPI (maxRateLimit a) v (averageRateCost a)
        (requestSendCount a) (responseReceivedCount a).
Definition set_averageRateCost (v : float) (a : APIManager) : APIManager :=
  mkAPI (maxRateLimit a) (rateLimitRemaining a) v
        (requestSendCount a) (responseReceivedCount a).
Definition set_requestSendCount (v : Z) (a : APIManager) : APIManager :=
  mkAPI (maxRateLimit a) (rateLimitRemaining a) (averageRateCost a)
        v (responseReceivedCount a).
Definition set_responseReceivedCount (v : Z) (a : APIManager) : APIManager :=
  mkAPI (maxRateLimit a) (rateLimitRemaining a) (averageRateCost a)
        (requestSendCount a) v.

(** [NewAPI]: the state a run starts from. *)
Definition NewAPI (rateLimitMax : Z) : APIManager :=
  mkAPI rateLimitMax (float64_of_int rateLimitMax) 0%float 0 0.

(** The part of an [http.Response] that [Get] reads. *)
Record Response : Type := mkResponse {
  StatusCode : Z;
  RateLimitRemaining : header;   (* header "RateLimit-Remaining" *)
  RequestCost : header           (* header "Request-Cost" *)
}.

(** What happens to one request. *)
Inductive outcome : Type :=
| NewRequestError               (* http.NewRequest fails *)
| DoError                       (* api.client.Do fails: no response *)
| Completed (resp : Response).

(** What [Get] does for its caller: returns an error, panics, or returns the
    response after [time.Sleep d] ([Some d]) or without sleeping ([None]). *)
Inductive result : Type :=
| Failed
| Panicked
| Returned (resp : Response) (slept : option Duration).

(** The if-chain on the remaining quota (the same text in both revisions),
    applied to [delay], which is 0 when the chain is reached. *)
Definition ladder (api : APIManager) (delay : Duration) : Duration :=
  let m := float64_of_int (maxRateLimit api) in
  if (rateLimitRemaining api <=? m * 0.25)%float then
    div64 (mul64 (maxRateLimit api) Second) 2
  else if (rateLimitRemaining api <=? m * 0.5)%float then
    div64 (mul64 (maxRateLimit api) Second) 4
  else if (rateLimitRemaining api <=? m * 0.75)%float then
    div64 (mul64 (maxRateLimit api) Second) 8
  else delay.

(** [if resp.StatusCode == http.StatusTooManyRequests { delay = 5 min }]. *)
Definition tooMany (resp : Response) (delay : Duration) : Duration :=
  if StatusCode resp =? StatusTooManyRequests then mul64 5 Minute else delay.

(** [previousCost > 0 && cost > previousCost*1.2]. *)
Definition costSpike (previousCost cost : float) : bool :=
  (0 <? previousCost)%float && (previousCost * 0x1.3333333333333p+0 <? cost)%float.

(** [if previousCost > 0 && cost > previousCost*1.2 { delay = 30 s }]. *)
Definition spike (previousCost cost : float) (delay : Duration) : Duration :=
  if costSpike previousCost cost then mul64 30 Second else delay.

(** The clamp of the remaining quota and the update of the average. *)
Definition observe (limit cost : float) (api : APIManager) : APIManager :=
  let api :=
    if (limit <? float64_of_int (maxRateLimit api))%float
    then set_rateLimitRemaining limit api
    else set_rateLimitRemaining (float64_of_int (maxRateLimit api)) api in
  if (0 <? cost)%float then
    set_averageRateCost
      (averageRateCost api
       + (cost - averageRateCost api) / float64_of_int (requestSendCount api))%float
      api
  else api.

(** The counters after the two increments of [Get]. *)
Definition counted (api : APIManager) : APIManager :=
  set_responseReceivedCount (add64 (responseReceivedCount api) 1)
    (set_requestSendCount (add64 (requestSendCount api) 1) api).

End Canvas.

(** ** [pkg/canvas/main.go] *)

Module PkgCanvas.
Import Go Canvas.

(** [func (api *APIManager) Get(endpoint string)]: the parse errors are
    discarded ([limit, _ :=], [cost, _ :=]) and the delay is slept as it is. *)
Definition Get (api : APIManager) (o : outcome) : APIManager * result :=
  let api := set_requestSendCount (add64 (requestSendCount api) 1) api in
  let previousCost := averageRateCost api in
  match o with
  | NewRequestError => (api, Failed)
  | DoError => (api, Failed)
  | Completed resp =>
    let api := set_responseReceivedCount (add64 (responseReceivedCount api) 1) api in
    let limit := fst (ParseFloat (RateLimitRemaining resp)) in
    let cost := fst (ParseFloat (RequestCost resp)) in
    let api := observe limit cost api in
    let delay := ladder api 0 in
    let delay := tooMany resp delay in
    let delay := spike previousCost cost delay in
    if 0 <? delay then (api, Returned resp (Some delay))
    else (api, Returned resp None)
  end.

End PkgCanvas.

(** ** [unnamed/part_001] *)

Module Part001.
Import Go Canvas.

(** The header values after the two [if err != nil] defaults. *)
Definition limitOf (api : APIManager) (resp : Response) : float :=
  let '(limit, err) := ParseFloat (RateLimitRemaining resp) in
  if err then float64_of_int (div64 (maxRateLimit api) 2) else limit.

Definition costOf (api : APIManager) (resp : Response) : float :=
  let '(cost, err) := ParseFloat (RequestCost resp) in
  if err then averageRateCost api else cost.

(** [jitter := time.Duration(rand.Int63n(int64(delay)/4)) * time.Millisecond]
    and the argument of [time.Sleep]; [None] when [Int63n] panics. *)
Definition jitterOf (delay : Duration) (raw : Z) : option Duration :=
  match Int63n (div64 delay 4) raw with
  | None => None
  | Some r => Some (mul64 r Millisecond)
  end.

(** [func (api *APIManager) Get(endpoint string)]; [raw] is the draw of the
    random source consumed when a delay is due. *)
Definition Get (api : APIManager) (o : outcome) (raw : Z) : APIManager * result :=
  let api := set_requestSendCount (add64 (requestSendCount api) 1) api in
  let previousCost := averageRateCost api in
  match o with
  | NewRequestError => (api, Failed)
  | DoError => (api, Failed)
  | Completed resp =>
    let api := set_responseReceivedCount (add64 (responseReceivedCount api) 1) api in
    let limit := limitOf api resp in
    let cost := costOf api resp in
    let api := observe limit cost api in
    let delay := ladder api 0 in
    let delay := tooMany resp delay in
    let delay := spike previousCost cost delay in
    if 0 <? delay then
      match jitterOf delay raw with
      | None => (api, Panicked)
      | Some jitter => (api, Returned resp (Some (add64 delay jitter)))
      end
    else (api, Returned resp None)
  end.

(** The delay [Get] has computed when it reaches [if delay > 0]. *)
Definition delayOf (api : APIManager) (resp : Response) : Duration :=
  let api := set_requestSendCount (add64 (requestSendCount api) 1) api in
  let previousCost := averageRateCost api in
  let api := set_responseReceivedCount (add64 (responseReceivedCount api) 1) api in
  let limit := limitOf api resp in
  let cost := costOf api resp in
  let api := observe limit cost api in
  spike previousCost cost (tooMany resp (ladder api 0)).

(** A run of requests, each with its outcome and its random draw. *)
Fixpoint run (api : APIManager) (events : list (outcome * Z)) : APIManager :=
  match events with
  | [] => api
  | (o, raw) :: rest => run (fst (Get api o raw)) rest
  end.

End Part001.

(** ** Go's [strings] functions used by the audit driver *)

Module Strings.
Local Open Scope string_scope.

(** [strings.HasPrefix(s, p)]. *)
Definition HasPrefix (s p : string) : bool := String.prefix p s.

(** [strings.Contains(s, sub)]. *)
Fixpoint Contains (s sub : string) : bool :=
  String.prefix sub s ||
  match s with
  | EmptyString => false
  | String _ rest => Contains rest sub
  end.

(** [strings.Split(s, sep)] for a one-byte separator: the pieces between
    the separators, one more than there are separators. *)
Fixpoint Split (s : string) (sep : ascii) : list string :=
  match s with
  | EmptyString => [EmptyString]
  | String c rest =>
    if Ascii.eqb c sep then EmptyString :: Split rest sep
    else match Split rest sep with
         | piece :: pieces => String c piece :: pieces
         | [] => [String c EmptyString]
         end
  end.

Definition inCutset (cutset : string) (c : ascii) : bool :=
  existsb (Ascii.eqb c) (list_ascii_of_string cutset).

Fixpoint TrimLeft (s cutset : string) : string :=
  match s with
  | EmptyString => EmptyString
  | String c rest => if inCutset cutset c then TrimLeft rest cutset else s
  end.

Fixpoint TrimRight (s cutset : string) : string :=
  match s with
  | EmptyString => EmptyString
  | String c rest =>
    match TrimRight rest cutset with
    | EmptyString => if inCutset cutset c then EmptyString else String c EmptyString
    | kept => String c kept
    end
  end.

(** [strings.Trim(s, cutset)] for a cutset of ASCII bytes. *)
Definition Trim (s cutset : string) : string :=
  TrimRight (TrimLeft s cutset) cutset.

Fixpoint dropPrefix (p s : string) : string :=
  match p, s with
  | String _ p', String _ s' => dropPrefix p' s'
  | _, _ => s
  end.

(** [strings.CutPrefix(s, p)]: [s] without the leading [p] and [true], or
    [s] itself and [false]. *)
Definition CutPrefix (s p : string) : string * bool :=
  if HasPrefix s p then (dropPrefix p s, true) else (s, false).

(** [strings.Join(elems, sep)]. *)
Definition Join (elems : list string) (sep : string) : string :=
  String.concat sep elems.

(** [fmt.Sprintf("%d", n)]. *)
Definition itoa (n : Z) : string := NilZero.string_of_int (Z.to_int n).

End Strings.

(** ** The audit driver: what [cmd/app/main.go] and [unnamed/part_002] share *)

Module App.
Import Strings.
Local Open Scope string_scope.

Record CanvasCourse : Type := mkCourse {
  ID : Z;
  Name : string;
  WorkflowState : string;
  DefaultViewType : string;
  Format : string;
  CourseSISID : string
}.

Record CanvasUser : Type := mkUser {
  UserID : Z;
  UserName : string;
  Email : string;
  SisID : string
}.

Record ResultItem : Type := mkResult {
  CourseID : Z;
  CourseName : string;
  Subject : string;
  ResultFormat : string;
  WithModules : string;
  WithAssignments : string;
  WithFrontPage : string;
  FacultyName : string;
  FacultyEmail : string
}.

(** [var result ResultItem]: every field at its zero value. *)
Definition zeroResult : ResultItem := mkResult 0 "" "" "" "" "" "" "" "".

Definition set_CourseID v r :=
  mkResult v (CourseName r) (Subject r) (ResultFormat r) (WithModules r)
           (WithAssignments r) (WithFrontPage r) (FacultyName r) (FacultyEmail r).
Definition set_CourseName v r :=
  mkResult (CourseID r) v (Subject r) (ResultFormat r) (WithModules r)
           (WithAssignments r) (WithFrontPage r) (FacultyName r) (FacultyEmail r).
Definition set_Subject v r :=
  mkResult (CourseID r) (CourseName r) v (ResultFormat r) (WithModules r)
           (WithAssignments r) (WithFrontPage r) (FacultyName r) (FacultyEmail r).
Definition set_WithModules v r :=
  mkResult (CourseID r) (CourseName r) (Subject r) (ResultFormat r) v
           (WithAssignments r) (WithFrontPage r) (FacultyName r) (FacultyEmail r).
Definition set_WithAssignments v r :=
  mkResult (CourseID r) (CourseName r) (Subject r) (ResultFormat r) (WithModules r)
           v (WithFrontPage r) (FacultyName r) (FacultyEmail r).
Definition set_WithFrontPage v r :=
  mkResult (CourseID r) (CourseName r) (Subject r) (ResultFormat r) (WithModules r)
           (WithAssignments r) v (FacultyName r) (FacultyEmail r).
Definition set_FacultyName v r :=
  mkResult (CourseID r) (CourseName r) (Subject r) (ResultFormat r) (WithModules r)
           (WithAssignments r) (WithFrontPage r) v (FacultyEmail r).
Definition set_FacultyEmail v r :=
  mkResult (CourseID r) (CourseName r) (Subject r) (ResultFormat r) (WithModules r)
           (WithAssignments r) (WithFrontPage r) (FacultyName r) v.

(** What the driver reads of a response of [api.Get]: the status, the result
    of decoding the body into the type the caller asks for ([None] when the
    decoder fails) and the [Link] header (empty when absent). *)
Record HttpResponse (A : Type) : Type := mkHttp {
  Status : Z;
  Decoded : option A;
  Link : string
}.
Arguments mkHttp {A} _ _ _.
Arguments Status {A} _.
Arguments Decoded {A} _.
Arguments Link {A} _.

(** [api.Get] as the driver sees it: [None] is [err != nil]. *)
Definition fetched (A : Type) : Type := option (HttpResponse A).

(** A decoded [map[string]interface{}], kept as its keys. *)
Definition object : Type := list string.

(** The decoded front page: [body] is [Some s] when the key ["body"] holds
    the string [s]. *)
Record FrontPage : Type := mkFrontPage { body : option string }.

(** The probe requests the driver issues for a course. *)
Inductive request : Type :=
| ReqModules (courseID : Z)
| ReqFrontPage (courseID : Z)
| ReqAssignments (courseID : Z)
| ReqTeachers (courseID : Z).

(** The remote service: the responses to the successive course-list
    requests, and the response to each probe of a course. *)
Record Remote : Type := mkRemote {
  coursePages : list (fetched (list CanvasCourse));
  modules : Z -> fetched (list object);
  frontPage : Z -> fetched FrontPage;
  assignments : Z -> fetched (list object);
  teachers : Z -> fetched (list CanvasUser)
}.

(** The shape shared by [getCourseModules] and [getCourseAssignments]:
    the Go pair [(bool, error)], the second component [true] for [err != nil]. *)
Definition presence (r : fetched (list object)) : bool * bool :=
  match r with
  | None => (false, true)
  | Some resp =>
    if negb (Status resp =? 200)%Z then (false, true)
    else match Decoded resp with
         | None => (false, true)
         | Some items => if (0 <? Z.of_nat (List.length items))%Z then (true, false)
                         else (false, false)
         end
  end.

Definition getCourseModules (remote : Remote) (courseID : Z) : bool * bool :=
  presence (modules remote courseID).

Definition getCourseAssignments (remote : Remote) (courseID : Z) : bool * bool :=
  presence (assignments remote courseID).

Definition getCourseFrontPage (remote : Remote) (courseID : Z) : bool * bool :=
  match frontPage remote courseID with
  | None => (false, true)
  | Some resp =>
    if negb (Status resp =? 200)%Z then (false, true)
    else match Decoded resp with
         | None => (false, true)
         | Some page =>
           match body page with
           | Some content => if negb (String.eqb content "") then (true, false)
                             else (false, false)
           | None => (false, false)
           end
         end
  end.

(** [getCourseTeachers]: the Go pair [([]CanvasUser, error)]. *)
Definition getCourseTeachers (remote : Remote) (courseID : Z)
  : list CanvasUser * bool :=
  match teachers remote courseID with
  | None => ([], true)
  | Some resp =>
    if negb (Status resp =? 200)%Z then ([], true)
    else match Decoded resp with
         | None => ([], true)
         | Some users => (users, false)
         end
  end.

(** The subject: the third of exactly four hyphen-separated parts. *)
Definition subjectOf (sis : string) : string :=
  let parts := Split sis "-" in
  if (Z.of_nat (List.length parts) =? 4)%Z then nth 2 parts "" else "Unknown".

Definition emailOf (teacher : CanvasUser) : string :=
  if negb (String.eqb (Email teacher) "") then Email teacher else "No Email".

(** The body of [if course.WorkflowState == ...] in [main] (the same
    statements in both revisions): the row of one course and the requests
    issued for it, in order. *)
Definition auditCourse (remote : Remote) (course : CanvasCourse)
  : ResultItem * list request :=
  let result := zeroResult in
  let result := set_CourseID (ID course) result in
  let result := set_CourseName (Name course) result in
  let result := set_Subject (subjectOf (CourseSISID course)) result in
  (* Check for Modules *)
  let '(mods, err) := getCourseModules remote (ID course) in
  let log := [ReqModules (ID course)] in
  let result := if err then set_WithModules "Error" result else result in
  let result := if mods then set_WithModules "Yes" result
                else set_WithModules "No" result in
  (* Check if Default View is "wiki" *)
  let '(result, log) :=
    if String.eqb (DefaultViewType course) "wiki" then
      let '(fp, err) := getCourseFrontPage remote (ID course) in
      let result := if err then set_WithFrontPage "Error" result else result in
      let result := if fp then set_WithFrontPage "Yes" result
                    else set_WithFrontPage "No" result in
      (result, (log ++ [ReqFrontPage (ID course)])%list)
    else (result, log) in
  (* Check for Assignments *)
  let '(asngs, err) := getCourseAssignments remote (ID course) in
  let log := (log ++ [ReqAssignments (ID course)])%list in
  let result := if err then set_WithAssignments "Error" result else result in
  let result := if asngs then set_WithAssignments "Yes" result
                else set_WithAssignments "No" result in
  (* Pull Teachers from Course *)
  let '(teachers, err) := getCourseTeachers remote (ID course) in
  let log := (log ++ [ReqTeachers (ID course)])%list in
  let result :=
    if err then set_FacultyEmail "Error" (set_FacultyName "Error" result)
    else if (0 <? Z.of_nat (List.length teachers))%Z then
      let facultyNames := map UserName teachers in
      let facultyEmails := map emailOf teachers in
      set_FacultyEmail (Join facultyEmails ", ")
        (set_FacultyName (Join facultyNames ", ") result)
    else set_FacultyEmail "No Email" (set_FacultyName "No Faculty" result) in
  (result, log).

(** The first loop of [main]: the courses whose SIS id starts with ["6253-"]. *)
Definition courseListOf (courses : list CanvasCourse) : list CanvasCourse :=
  filter (fun course => HasPrefix (CourseSISID course) "6253-") courses.

(** The second loop of [main], for the workflow state [state] the revision
    tests: the rows appended to [results] and the requests issued. *)
Fixpoint probeAll (remote : Remote) (state : string)
         (courseList : list CanvasCourse) : list ResultItem * list request :=
  match courseList with
  | [] => ([], [])
  | course :: rest =>
    let '(results, log) := probeAll remote state rest in
    if String.eqb (WorkflowState course) state then
      let '(result, reqs) := auditCourse remote course in
      (result :: results, (reqs ++ log)%list)
    else (results, log)
  end.

Definition header : list string :=
  ["course_id"; "course_name"; "subject"; "with_modules"; "with_assignments";
   "with_front_page"; "faculty_name"; "faculty_email"].

(** What [getCourses] returns or would do next. *)
Inductive listing : Type :=
| ListingError                                 (* [return nil, err] *)
| Listed (courses : list CanvasCourse)         (* [return courses, nil] *)
| NextRequest (ep : string) (courses : list CanvasCourse).
    (* the responses given are used up and the loop requests [ep] next *)

(** [rel="next"]. *)
Definition relNext : string :=
  String "r" (String "e" (String "l" (String "="
    (String (ascii_of_nat 34) (String "n" (String "e" (String "x" (String "t"
    (String (ascii_of_nat 34) EmptyString))))))))).

(** [link := strings.Split(part, ";"); link[0] = strings.Trim(link[0], " <>")]. *)
Definition linkTarget (part : string) : string :=
  Trim (hd "" (Split part ";")) " <>".

(** [fmt.Sprintf("accounts/1/courses?search_term=%s&per_page=100", search)]. *)
Definition firstEndpoint (search : string) : string :=
  "accounts/1/courses?search_term=" ++ search ++ "&per_page=100".

End App.

(** ** [cmd/app/main.go] *)

Module CmdApp.
Import Strings App.
Local Open Scope string_scope.

(** The [for _, part := range parts] of [getCourses]: the first part that
    contains [rel="next"] sets [ep] and leaves the loop ([break]). *)
Fixpoint scanNext (baseURL : string) (parts : list string) (ep : string) : string :=
  match parts with
  | [] => ep
  | part :: rest =>
    if Contains part relNext then fst (CutPrefix (linkTarget part) baseURL)
    else scanNext baseURL rest ep
  end.

(** The [for next] loop of [getCourses] run on the responses to its
    successive requests; [ep] is the endpoint of the next request and
    [courses] what has been collected. [baseURL] is [BETA_API_URL]. *)
Fixpoint pageLoop (baseURL : string) (pages : list (fetched (list CanvasCourse)))
         (ep : string) (courses : list CanvasCourse) : listing :=
  match pages with
  | [] => NextRequest ep courses
  | None :: _ => ListingError
  | Some resp :: rest =>
    let ep := "" in
    if negb (Status resp =? 200)%Z then ListingError
    else match Decoded resp with
         | None => ListingError
         | Some pageCourses =>
           let courses := (courses ++ pageCourses)%list in
           let headers := Link resp in
           if String.eqb headers "" then Listed courses
           else
             let ep := scanNext baseURL (Split headers ",") ep in
             if String.eqb ep "" then Listed courses
             else pageLoop baseURL rest ep courses
         end
  end.

Definition getCourses (baseURL : string) (pages : list (fetched (list CanvasCourse)))
           (search : string) : listing :=
  pageLoop baseURL pages (firstEndpoint search) [].

(** The endpoint [getCourses] holds after it has read the [Link] header of a
    page: empty when the loop is to stop. *)
Definition continuation (baseURL link : string) : string :=
  if String.eqb link "" then "" else scanNext baseURL (Split link ",") "".

(** A page that arrives with status 200 and decodes to [items]. *)
Definition goodPage (page : list CanvasCourse * string) : fetched (list CanvasCourse) :=
  Some (mkHttp 200 (Some (fst page)) (snd page)).

(** The first part of a [Link] header that contains [rel="next"]. *)
Definition firstNext (link : string) : option string :=
  find (fun part => Contains part relNext) (Split link ",").

(** The endpoint requested after the pages [pages], starting from [ep]. *)
Definition lastContinuation (baseURL : string) (pages : list (list CanvasCourse * string))
           (ep : string) : string :=
  fold_left (fun _ page => continuation baseURL (snd page)) pages ep.

(** The [record] written for one result. *)
Definition recordOf (result : ResultItem) : list string :=
  [ itoa (CourseID result) ++ ",";
    CourseName result ++ ",";
    Subject result ++ ",";
    WithModules result ++ ",";
    WithAssignments result ++ ",";
    WithFrontPage result ++ ",";
    (FacultyName result ++ ",") ++ FacultyEmail result ].

(** What a run of [main] leaves behind. *)
Inductive run : Type :=
| Aborted                     (* the course listing failed: no file *)
| Unfinished                  (* the listing asks for a page not given *)
| Wrote (file : list (list string)) (results : list ResultItem)
        (probes : list request).
    (* the records handed to the CSV writer, in order; the rows kept in
       [results]; the probe requests issued *)

Definition workflowState : string := "unpublished".

(** [func main()] from its call of [getCourses] on, in a run where
    [godotenv.Load] has succeeded and where the directory, the file and the
    writes of the CSV writer succeed. On an error of one of these steps
    [main] returns at once ([cmd/app/main.go] 50-54, 157-179, 190-193): for
    [godotenv.Load] before any request, for the others after the probes and
    without a complete file. Such runs are not among the values of [run]. *)
Definition main (baseURL : string) (remote : Remote) : run :=
  match getCourses baseURL (coursePages remote) "6253-" with
  | ListingError => Aborted
  | NextRequest _ _ => Unfinished
  | Listed courses =>
    let courseList := courseListOf courses in
    let '(results, probes) := probeAll remote workflowState courseList in
    Wrote (header :: map recordOf results) results probes
  end.

End CmdApp.

(** ** [unnamed/part_002] *)

Module Part002.
Import Strings App.
Local Open Scope string_scope.

(** The [for _, part := range parts] of this revision: a part that contains
    [rel="next"] sets [ep] and [next = true] and goes on ([continue]); any
    other part sets [next = false]. *)
Fixpoint scanParts (parts : list string) (ep : string) (next : bool) : string * bool :=
  match parts with
  | [] => (ep, next)
  | part :: rest =>
    if Contains part relNext then scanParts rest (linkTarget part) true
    else scanParts rest ep false
  end.

Fixpoint pageLoop (pages : list (fetched (list CanvasCourse)))
         (ep : string) (courses : list CanvasCourse) : listing :=
  match pages with
  | [] => NextRequest ep courses
  | None :: _ => ListingError
  | Some resp :: rest =>
    if negb (Status resp =? 200)%Z then ListingError
    else match Decoded resp with
         | None => ListingError
         | Some pageCourses =>
           let courses := (courses ++ pageCourses)%list in
           let headers := Link resp in
           if String.eqb headers "" then Listed courses
           else
             let '(ep, next) := scanParts (Split headers ",") ep true in
             if next then pageLoop rest ep courses else Listed courses
         end
  end.

Definition getCourses (pages : list (fetched (list CanvasCourse)))
           (search : string) : listing :=
  pageLoop pages (firstEndpoint search) [].

Definition workflowState : string := "unavailable".

(** [main] of this revision writes the header and no record. *)
Definition main (remote : Remote) : CmdApp.run :=
  match getCourses (coursePages remote) "6253-" with
  | ListingError => CmdApp.Aborted
  | NextRequest _ _ => CmdApp.Unfinished
  | Listed courses =>
    let courseList := courseListOf courses in
    let '(results, probes) := probeAll remote workflowState courseList in
    CmdApp.Wrote [header] results probes
  end.

End Part002.


(** ** Inputs the properties are evaluated at *)

Module Scenarios.
Import Go Canvas Strings App.

(** [f] holds at the [n] integers from [z] on. *)
Fixpoint allFrom (f : Z -> bool) (z : Z) (n : nat) : bool :=
  match n with
  | O => true
  | S k => f z && allFrom f (z + 1) k
  end.

(** [float64(max / 2) < float64(max)], the test the default of the
    remaining quota meets in [Get]. *)
Definition halfBelow (max : Z) : bool :=
  (float64_of_int (div64 max 2) <? float64_of_int max)%float.

(** A manager of the run's ceiling (700) after five requests of cost 10. *)
Definition warmAPI : APIManager := mkAPI 700 700%float 10%float 5 5.

(** A response that leaves 10% of the quota and costs 13. *)
Definition lowQuotaSpike : Response :=
  mkResponse 200 (Number 70%float) (Number 13%float).

(** A response that leaves 10% of the quota and costs 10. *)
Definition lowQuota10 : Response :=
  mkResponse 200 (Number 70%float) (Number 10%float).

(** A 429 response that costs 10. *)
Definition tooMany10 : Response :=
  mkResponse 429 (Number 700%float) (Number 10%float).

(** A response whose remaining-quota header is a number too large for a
    [float64]. *)
Definition hugeRemaining : Response :=
  mkResponse 200 (OutOfRange false) Malformed.

(** A response that leaves the quota full and costs 13. *)
Definition fullQuotaSpike : Response :=
  mkResponse 200 (Number 700%float) (Number 13%float).

(** A 429 response that costs 13. *)
Definition tooManySpike : Response :=
  mkResponse 429 (Number 700%float) (Number 13%float).

(** A response with no rate-limit header that can be parsed. *)
Definition noHeaders : Response := mkResponse 200 Malformed Malformed.

(** A response that leaves the quota full and costs 10. *)
Definition plain10 : Response :=
  mkResponse 200 (Number 700%float) (Number 10%float).

(** A response that leaves the quota full and costs 16. *)
Definition plain16 : Response :=
  mkResponse 200 (Number 700%float) (Number 16%float).

Local Open Scope string_scope.

(** The scenario of the specification: one unpublished wiki course, no
    module, an empty front page, a failing assignments probe, one teacher
    without email. *)
Definition scenarioCourse : CanvasCourse :=
  mkCourse 1 "English 201" "unpublished" "wiki" "" "6253-FA-ENG-201".

Definition scenarioRemote : Remote :=
  mkRemote
    [Some (mkHttp 200 (Some [scenarioCourse]) "")]
    (fun _ => Some (mkHttp 200 (Some []) ""))
    (fun _ => Some (mkHttp 200 (Some (mkFrontPage (Some ""))) ""))
    (fun _ => None)
    (fun _ => Some (mkHttp 200 (Some [mkUser 7 "Ada Byron" "" ""]) "")).

(** A [Link] header whose only segment has the relation next and an empty
    target. *)
Definition emptyNextLink : string := "<>; " ++ relNext.

(** A [Link] header as Canvas sends it: next is followed by other segments. *)
Definition canvasLink : string :=
  "<https://canvas.test/api/v1/accounts/1/courses?page=2>; " ++ relNext
  ++ ",<https://canvas.test/api/v1/accounts/1/courses?page=1>; rel=first".

(** A [Link] header with the single segment next for page [n]. *)
Definition nextLink (n : string) : string :=
  "<https://canvas.test/api/v1/accounts/1/courses?page=" ++ n ++ ">; " ++ relNext.

Definition courseA : CanvasCourse :=
  mkCourse 11 "Algebra" "unpublished" "modules" "" "6253-FA-MATH-101".
Definition courseB : CanvasCourse :=
  mkCourse 12 "Biology" "available" "wiki" "" "6253-FA-BIO-110".
Definition courseC : CanvasCourse :=
  mkCourse 13 "Chemistry" "unpublished" "wiki" "" "6251-SP-CHEM-120".

(** Three pages, each but the last advertising the next one. *)
Definition threePages : list (list CanvasCourse * string) :=
  [([courseA], nextLink "2"); ([courseB], nextLink "3"); ([courseC], "")].

Definition threePageRemote : Remote :=
  mkRemote
    (map CmdApp.goodPage threePages)
    (fun _ => Some (mkHttp 200 (Some [["id"]]) ""))
    (fun _ => Some (mkHttp 200 (Some (mkFrontPage (Some "<p>Welcome</p>"))) ""))
    (fun _ => Some (mkHttp 200 (Some []) ""))
    (fun _ => Some (mkHttp 200 (Some []) "")).

Definition testBase : string := "https://canvas.test/api/v1/".

(** The service of the three pages when the second page is lost. *)
Definition lostPageRemote : Remote :=
  mkRemote
    [CmdApp.goodPage ([courseA], nextLink "2"); None;
     CmdApp.goodPage ([courseC], "")]
    (modules threePageRemote) (frontPage threePageRemote)
    (assignments threePageRemote) (teachers threePageRemote).

(** The course-selection test of [main]: both of its conditions. *)
Definition selected (course : CanvasCourse) : bool :=
  HasPrefix (CourseSISID course) "6253-"
  && String.eqb (WorkflowState course) CmdApp.workflowState.


End Scenarios.

(** ** Shapes of inputs the further properties speak of *)

Module Shapes.
Import Go Canvas Strings App.
Local Open Scope string_scope.

(** The time a request cycle slept before it returned to its caller. *)
Definition sleepOf (r : result) : option Duration :=
  match r with
  | Returned _ slept => slept
  | _ => None
  end.

(** The outcomes that carry a response. *)
Definition isCompleted (event : outcome * Z) : bool :=
  match fst event with
  | Completed _ => true
  | _ => false
  end.

(** An outcome that brings no cost the average could take: no response, or
    a response whose cost header does not parse. *)
Definition bringsNoCost (event : outcome * Z) : bool :=
  match fst event with
  | Completed resp => snd (ParseFloat (RequestCost resp))
  | _ => true
  end.

(** A response whose two rate headers parse. *)
Definition headersParse (resp : Response) : bool :=
  negb (snd (ParseFloat (RateLimitRemaining resp)))
  && negb (snd (ParseFloat (RequestCost resp))).

(** The number of bytes [c] in [s]. *)
Fixpoint countByte (c : ascii) (s : string) : nat :=
  match s with
  | EmptyString => O
  | String a rest => (if Ascii.eqb a c then 1 else 0) + countByte c rest
  end.

(** A page the listing cannot use: no response, a status other than 200, or
    a body that does not decode. *)
Definition failingPage (page : fetched (list CanvasCourse)) : bool :=
  match page with
  | None => true
  | Some resp =>
    negb (Status resp =? 200)%Z
    || match Decoded resp with None => true | Some _ => false end
  end.

(** The [Link] segment that advertises [url] as the next page. *)
Definition nextSegment (url : string) : string := "<" ++ url ++ ">; " ++ relNext.

(** [time.Duration(readTimeout) * time.Second] after the floor of [NewAPI]:
    [if readTimeout <= 30 { readTimeout = 60 }]. *)
Definition clientTimeout (readTimeout : Z) : Duration :=
  mul64 (if (readTimeout <=? 30)%Z then 60 else readTimeout) Second.

(** The tests of the ladder that half a ceiling meets: above a quarter of
    the ceiling, at most half of it. *)
Definition halfInSecondTier (max : Z) : bool :=
  let quota := float64_of_int max in
  let half := float64_of_int (div64 max 2) in
  negb (half <=? quota * 0.25)%float && (half <=? quota * 0.5)%float.

(** The tests that a remaining quota of zero meets: below the ceiling, and
    at most a quarter of it. *)
Definition zeroInFirstTier (max : Z) : bool :=
  let quota := float64_of_int max in
  (0 <? quota)%float && (0 <=? quota * 0.25)%float.

(** The service [remote] with its modules endpoint out of reach. *)
Definition withoutModules (remote : Remote) : Remote :=
  mkRemote (coursePages remote) (fun _ => None) (frontPage remote)
           (assignments remote) (teachers remote).

(** The requests [main] issues for one course, in order. *)
Definition requestsOf (course : CanvasCourse) : list request :=
  (ReqModules (ID course)
   :: (if String.eqb (DefaultViewType course) "wiki"
       then [ReqFrontPage (ID course)] else [])
   ++ [ReqAssignments (ID course); ReqTeachers (ID course)])%list.

End Shapes.

(** * Properties of the audit driver *)

Module AuditFacts.
Import Strings App Scenarios.
Local Open Scope string_scope.

Ltac split_probes :=
  repeat match goal with
         | |- context [getCourseModules ?r ?c] => destruct (getCourseModules r c) as [[] []]
         | |- context [getCourseFrontPage ?r ?c] => destruct (getCourseFrontPage r c) as [[] []]
         | |- context [getCourseAssignments ?r ?c] => destruct (getCourseAssignments r c) as [[] []]
         | |- context [getCourseTeachers ?r ?c] => destruct (getCourseTeachers r c) as [? []]
         | |- context [String.eqb ?a ?b] => destruct (String.eqb a b)
         | |- context [(0 <? ?n)%Z] => destruct (0 <? n)%Z
         end.

(** A failing presence probe returns [false] with its error. *)
Lemma presence_error_false (r : fetched (list object)) :
  snd (presence r) = true -> fst (presence r) = false.
Proof.
  unfold presence. destruct r as [resp|]; [|reflexivity].
  destruct (negb (Status resp =? 200)%Z); [reflexivity|].
  destruct (Decoded resp) as [items|]; [|reflexivity].
  destruct (0 <? Z.of_nat (List.length items))%Z; simpl; congruence.
Qed.

Lemma frontPage_error_false remote courseID :
  snd (getCourseFrontPage remote courseID) = true ->
  fst (getCourseFrontPage remote courseID) = false.
Proof.
  unfold getCourseFrontPage. destruct (frontPage remote courseID) as [resp|]; [|reflexivity].
  destruct (negb (Status resp =? 200)%Z); [reflexivity|].
  destruct (Decoded resp) as [page|]; [|reflexivity].
  destruct (body page) as [content|]; [|reflexivity].
  destruct (negb (content =? "")); simpl; congruence.
Qed.

(** C1. The code at the failing input: whatever the probes answer, also when
    one of them fails, the three presence fields of the row never hold
    "Error": the value set on [err != nil] is overwritten by the
    [if ... else] that follows it, so a failed modules or assignments probe
    reads "No", and so does a failed front-page probe. *)
Theorem presence_fields_never_Error (remote : Remote) (course : CanvasCourse) :
  let result := fst (auditCourse remote course) in
  (WithModules result = "Yes" \/ WithModules result = "No") /\
  (WithAssignments result = "Yes" \/ WithAssignments result = "No") /\
  (WithFrontPage result = "Yes" \/ WithFrontPage result = "No" \/
   WithFrontPage result = "").
Proof.
  unfold auditCourse. split_probes; simpl; auto.
Qed.

(** The same at the scenario of the specification: the assignments probe
    fails and the row says "No" where the specification expects "Error". *)
Example scenario_row :
  fst (auditCourse scenarioRemote scenarioCourse)
  = mkResult 1 "English 201" "ENG" "" "No" "No" "No" "Ada Byron" "No Email".
Proof. reflexivity. Qed.

(** A failed modules probe reads "No" in the row. *)
Lemma modules_failure_reads_No (remote : Remote) (course : CanvasCourse) :
  snd (getCourseModules remote (ID course)) = true ->
  WithModules (fst (auditCourse remote course)) = "No".
Proof.
  intros Herr. pose proof (presence_error_false _ Herr) as Hval.
  unfold auditCourse. fold (getCourseModules remote (ID course)) in Hval.
  destruct (getCourseModules remote (ID course)) as [mods err].
  simpl in Herr, Hval. subst. split_probes; reflexivity.
Qed.

End AuditFacts.

(** * Properties of the API manager *)

Module CanvasFacts.
Import Go Canvas Scenarios Shapes.

(** ** Integers of 64 bits *)

Lemma wrap64_small (z : Z) : - 2 ^ 63 <= z < 2 ^ 63 -> wrap64 z = z.
Proof.
  intros H. unfold wrap64.
  rewrite Z.mod_small by lia. lia.
Qed.

Lemma allFrom_spec (f : Z -> bool) (n : nat) :
  forall z, allFrom f z n = true ->
  forall k, z <= k < z + Z.of_nat n -> f k = true.
Proof.
  induction n as [|n IH]; intros z Hall k Hk.
  - simpl in Hk. lia.
  - simpl in Hall. apply andb_prop in Hall. destruct Hall as [Hz Hrest].
    destruct (Z.eq_dec k z) as [->|Hne]; [exact Hz|].
    apply (IH (z + 1) Hrest). lia.
Qed.

(** ** What [Get] leaves in the manager *)

Lemma Part001_Get_state (api : APIManager) (resp : Response) (raw : Z) :
  fst (Part001.Get api (Completed resp) raw)
  = observe (Part001.limitOf (counted api) resp) (Part001.costOf (counted api) resp)
            (counted api).
Proof.
  unfold Part001.Get, counted.
  match goal with |- context [if ?c then _ else _] => destruct c end;
    [match goal with |- context [Part001.jitterOf ?d ?r] =>
       destruct (Part001.jitterOf d r) end|]; reflexivity.
Qed.

Lemma Part001_Get_result (api : APIManager) (resp : Response) (raw : Z) :
  snd (Part001.Get api (Completed resp) raw)
  = if 0 <? Part001.delayOf api resp then
      match Part001.jitterOf (Part001.delayOf api resp) raw with
      | None => Panicked
      | Some jitter => Returned resp (Some (add64 (Part001.delayOf api resp) jitter))
      end
    else Returned resp None.
Proof.
  unfold Part001.Get, Part001.delayOf.
  match goal with |- context [if ?c then _ else _] => destruct c end;
    [match goal with |- context [Part001.jitterOf ?d ?r] =>
       destruct (Part001.jitterOf d r) end|]; reflexivity.
Qed.

Lemma PkgCanvas_Get_state (api : APIManager) (resp : Response) :
  fst (PkgCanvas.Get api (Completed resp))
  = observe (fst (ParseFloat (RateLimitRemaining resp)))
            (fst (ParseFloat (RequestCost resp))) (counted api).
Proof.
  unfold PkgCanvas.Get, counted.
  match goal with |- context [if ?c then _ else _] => destruct c end; reflexivity.
Qed.

Lemma observe_maxRateLimit limit cost api :
  maxRateLimit (observe limit cost api) = maxRateLimit api.
Proof.
  unfold observe.
  destruct (limit <? _)%float; destruct (0 <? cost)%float; reflexivity.
Qed.

(** The remaining quota recorded: the header value, at most the ceiling. *)
Lemma observe_rateLimitRemaining limit cost api :
  rateLimitRemaining (observe limit cost api)
  = if (limit <? float64_of_int (maxRateLimit api))%float then limit
    else float64_of_int (maxRateLimit api).
Proof.
  unfold observe.
  destruct (limit <? _)%float; destruct (0 <? cost)%float; reflexivity.
Qed.

Lemma observe_requestSendCount limit cost api :
  requestSendCount (observe limit cost api) = requestSendCount api.
Proof.
  unfold observe.
  destruct (limit <? _)%float; destruct (0 <? cost)%float; reflexivity.
Qed.

Lemma observe_responseReceivedCount limit cost api :
  responseReceivedCount (observe limit cost api) = responseReceivedCount api.
Proof.
  unfold observe.
  destruct (limit <? _)%float; destruct (0 <? cost)%float; reflexivity.
Qed.

(** The average recorded: updated by a positive cost, kept otherwise. *)
Lemma observe_averageRateCost limit cost api :
  averageRateCost (observe limit cost api)
  = if (0 <? cost)%float then
      (averageRateCost api
       + (cost - averageRateCost api) / float64_of_int (requestSendCount api))%float
    else averageRateCost api.
Proof.
  unfold observe.
  destruct (limit <? _)%float; destruct (0 <? cost)%float; reflexivity.
Qed.

(** The ladder reads the ceiling and the remaining quota, nothing else. *)
Lemma ladder_ext (a b : APIManager) (delay : Duration) :
  maxRateLimit a = maxRateLimit b ->
  rateLimitRemaining a = rateLimitRemaining b ->
  ladder a delay = ladder b delay.
Proof.
  intros Hm Hr. unfold ladder. rewrite Hm, Hr. reflexivity.
Qed.

(** ** The cost spike and the 429 status *)

(** The result of [Get] of [pkg/canvas/main.go] for a response: the delay
    after the ladder, the 429 rule and the spike rule, slept when positive. *)
Lemma PkgCanvas_Get_delay (api : APIManager) (resp : Response) :
  snd (PkgCanvas.Get api (Completed resp))
  = if 0 <? spike (averageRateCost api) (fst (ParseFloat (RequestCost resp)))
                  (tooMany resp (ladder (fst (PkgCanvas.Get api (Completed resp))) 0))
    then Returned resp
           (Some (spike (averageRateCost api) (fst (ParseFloat (RequestCost resp)))
                    (tooMany resp
                       (ladder (fst (PkgCanvas.Get api (Completed resp))) 0))))
    else Returned resp None.
Proof.
  rewrite PkgCanvas_Get_state. unfold PkgCanvas.Get. cbn zeta.
  match goal with
  | |- snd (if ?c then _ else _) = (if ?c' then _ else _) =>
    change c with c'; destruct c'
  end; reflexivity.
Qed.

(** C2. The code at the failing input: with a ceiling of 700, an average
    cost of 10 and 10% of the quota left, a response of cost 10 is followed
    by the 350 s of the ladder, and the same response with a cost of 13, a
    spike, by 30 s: the assignment of the spike rule replaces the larger
    delay of the ladder, where the maximum of the two is 350 s. A 429
    response of cost 10 is followed by 5 minutes, and one of cost 13 by
    30 s. [Get] of [unnamed/part_001] computes the same 30 s. *)
Theorem spike_replaces_larger_delay :
  costSpike (averageRateCost warmAPI) (fst (ParseFloat (RequestCost lowQuota10)))
  = false /\
  snd (PkgCanvas.Get warmAPI (Completed lowQuota10))
  = Returned lowQuota10 (Some (350 * Second)) /\
  costSpike (averageRateCost warmAPI) (fst (ParseFloat (RequestCost lowQuotaSpike)))
  = true /\
  ladder (fst (PkgCanvas.Get warmAPI (Completed lowQuotaSpike))) 0 = 350 * Second /\
  snd (PkgCanvas.Get warmAPI (Completed lowQuotaSpike))
  = Returned lowQuotaSpike (Some (30 * Second)) /\
  Z.max (350 * Second) (30 * Second) = 350 * Second /\
  snd (PkgCanvas.Get warmAPI (Completed tooMany10))
  = Returned tooMany10 (Some (5 * Minute)) /\
  snd (PkgCanvas.Get warmAPI (Completed tooManySpike))
  = Returned tooManySpike (Some (30 * Second)) /\
  snd (Part001.Get warmAPI (Completed lowQuotaSpike) 0)
  = Returned lowQuotaSpike (Some (30 * Second)) /\
  snd (Part001.Get warmAPI (Completed tooManySpike) 0)
  = Returned tooManySpike (Some (30 * Second)).
Proof.
  repeat split; vm_compute; reflexivity.
Qed.

(** ** The ladder *)

(** A tier of the ladder is the ceiling in seconds divided by 2, 4 or 8,
    exactly, as long as the ceiling in nanoseconds fits 64 bits. *)
Lemma tier_value (max k : Z) :
  1 <= max <= 9223372036 -> k = 2 \/ k = 4 \/ k = 8 ->
  k * div64 (mul64 max Second) k = max * Second /\
  125000000 <= div64 (mul64 max Second) k < 2 ^ 62.
Proof.
  intros Hmax Hk. unfold div64, mul64, Second.
  rewrite (wrap64_small (max * 1000000000)) by lia.
  rewrite Z.quot_div_nonneg by lia.
  assert (Hq : k * (max * 1000000000 / k) = max * 1000000000).
  { destruct Hk as [->|[->| ->]].
    - replace (max * 1000000000) with (max * 500000000 * 2) by lia.
      rewrite Z.div_mul by lia. lia.
    - replace (max * 1000000000) with (max * 250000000 * 4) by lia.
      rewrite Z.div_mul by lia. lia.
    - replace (max * 1000000000) with (max * 125000000 * 8) by lia.
      rewrite Z.div_mul by lia. lia. }
  assert (Hb : 125000000 <= max * 1000000000 / k < 2 ^ 62) by lia.
  rewrite wrap64_small by lia. split; [exact Hq | exact Hb].
Qed.

Lemma ladder_cases (api : APIManager) :
  ladder api 0 = div64 (mul64 (maxRateLimit api) Second) 2 \/
  ladder api 0 = div64 (mul64 (maxRateLimit api) Second) 4 \/
  ladder api 0 = div64 (mul64 (maxRateLimit api) Second) 8 \/
  ladder api 0 = 0.
Proof.
  unfold ladder.
  destruct (_ <=? _ * 0.25)%float; [auto|].
  destruct (_ <=? _ * 0.5)%float; [auto|].
  destruct (_ <=? _ * 0.75)%float; auto.
Qed.

(** The delay of a cycle is zero or at least an eighth of a second. *)
Lemma delayOf_range (api : APIManager) (resp : Response) :
  1 <= maxRateLimit api <= 9223372036 ->
  Part001.delayOf api resp = 0 \/
  125000000 <= Part001.delayOf api resp < 2 ^ 62.
Proof.
  intros Hmax. unfold Part001.delayOf, spike, tooMany.
  destruct (costSpike _ _); [right; vm_compute; split; [discriminate|reflexivity]|].
  destruct (_ =? _); [right; vm_compute; split; [discriminate|reflexivity]|].
  match goal with |- context [ladder ?a 0] =>
    assert (Hm : maxRateLimit a = maxRateLimit api)
      by (rewrite observe_maxRateLimit; reflexivity);
    destruct (ladder_cases a) as [H|[H|[H|H]]]; rewrite H; try rewrite Hm
  end.
  - right. apply (tier_value _ 2); auto.
  - right. apply (tier_value _ 4); auto.
  - right. apply (tier_value _ 8); auto.
  - left. reflexivity.
Qed.

(** [rand.Int63n] does not panic on a delay of four nanoseconds or more. *)
Lemma jitterOf_defined (delay raw : Z) :
  4 <= delay < 2 ^ 63 ->
  Part001.jitterOf delay raw
  = Some (mul64 (raw mod (delay / 4)) Millisecond).
Proof.
  intros Hd. unfold Part001.jitterOf, Int63n, div64.
  rewrite Z.quot_div_nonneg by lia.
  assert (1 <= delay / 4 < 2 ^ 63).
  { split; [apply Z.div_le_lower_bound; lia|].
    apply Z.div_lt_upper_bound; lia. }
  rewrite wrap64_small by lia.
  destruct (delay / 4 <=? 0) eqn:E; [apply Z.leb_le in E; lia | reflexivity].
Qed.

(** [Get] returns the response of every completed request. *)
Lemma Get_returns (api : APIManager) (resp : Response) (raw : Z) :
  1 <= maxRateLimit api <= 9223372036 ->
  exists slept, snd (Part001.Get api (Completed resp) raw) = Returned resp slept.
Proof.
  intros Hmax. rewrite Part001_Get_result.
  destruct (delayOf_range api resp Hmax) as [H0|Hd].
  - rewrite H0. simpl. eauto.
  - destruct (0 <? Part001.delayOf api resp); [|eauto].
    rewrite jitterOf_defined by lia. eauto.
Qed.

(** The delay of the ladder once a response is observed, by the tests the
    code makes. *)
Lemma ladder_after_Get (api : APIManager) (resp : Response) :
  ladder (fst (PkgCanvas.Get api (Completed resp))) 0
  = let quota := float64_of_int (maxRateLimit api) in
    let remaining := rateLimitRemaining (fst (PkgCanvas.Get api (Completed resp))) in
    if (remaining <=? quota * 0.25)%float
    then div64 (mul64 (maxRateLimit api) Second) 2
    else if (remaining <=? quota * 0.5)%float
    then div64 (mul64 (maxRateLimit api) Second) 4
    else if (remaining <=? quota * 0.75)%float
    then div64 (mul64 (maxRateLimit api) Second) 8
    else 0.
Proof.
  unfold ladder. rewrite PkgCanvas_Get_state, observe_maxRateLimit. reflexivity.
Qed.

(** Without a 429 status and without a cost spike the cycle sleeps the delay
    of the ladder, when it is positive. *)
Lemma PkgCanvas_Get_ladder (api : APIManager) (resp : Response) :
  StatusCode resp <> StatusTooManyRequests ->
  costSpike (averageRateCost api) (fst (ParseFloat (RequestCost resp))) = false ->
  snd (PkgCanvas.Get api (Completed resp))
  = if 0 <? ladder (fst (PkgCanvas.Get api (Completed resp))) 0
    then Returned resp (Some (ladder (fst (PkgCanvas.Get api (Completed resp))) 0))
    else Returned resp None.
Proof.
  intros H429 Hspike. rewrite PkgCanvas_Get_delay.
  unfold spike. rewrite Hspike.
  unfold tooMany. apply Z.eqb_neq in H429. rewrite H429. reflexivity.
Qed.

(** C4. A request cycle of [Get] of [pkg/canvas/main.go] whose response is
    not a 429 and brings no cost spike sleeps, before it returns, half the
    ceiling in seconds when the remaining quota it recorded is at most 25% of
    the ceiling, a quarter when it is above 25% and at most 50%, an eighth
    when it is above 50% and at most 75%, and does not sleep above 75%; the
    sleep is the same for every such status and cost; and with a ceiling of
    700 and no average yet, a remaining quota of 70 (10%) is followed by the
    350 s of the first tier and one of 420 (60%) by the 87.5 s of the third,
    for every cost. *)
Theorem ladder_tiers (api : APIManager) (resp : Response) :
  1 <= maxRateLimit api <= 9223372036 ->
  StatusCode resp <> StatusTooManyRequests ->
  costSpike (averageRateCost api) (fst (ParseFloat (RequestCost resp))) = false ->
  let quota := float64_of_int (maxRateLimit api) in
  let remaining := rateLimitRemaining (fst (PkgCanvas.Get api (Completed resp))) in
  ((remaining <=? quota * 0.25)%float = true ->
   exists delay,
     snd (PkgCanvas.Get api (Completed resp)) = Returned resp (Some delay) /\
     2 * delay = maxRateLimit api * Second) /\
  ((remaining <=? quota * 0.25)%float = false ->
   (remaining <=? quota * 0.5)%float = true ->
   exists delay,
     snd (PkgCanvas.Get api (Completed resp)) = Returned resp (Some delay) /\
     4 * delay = maxRateLimit api * Second) /\
  ((remaining <=? quota * 0.25)%float = false ->
   (remaining <=? quota * 0.5)%float = false ->
   (remaining <=? quota * 0.75)%float = true ->
   exists delay,
     snd (PkgCanvas.Get api (Completed resp)) = Returned resp (Some delay) /\
     8 * delay = maxRateLimit api * Second) /\
  ((remaining <=? quota * 0.25)%float = false ->
   (remaining <=? quota * 0.5)%float = false ->
   (remaining <=? quota * 0.75)%float = false ->
   snd (PkgCanvas.Get api (Completed resp)) = Returned resp None) /\
  (forall status cost,
     status <> StatusTooManyRequests ->
     costSpike (averageRateCost api) (fst (ParseFloat cost)) = false ->
     sleepOf (snd (PkgCanvas.Get api
        (Completed (mkResponse status (RateLimitRemaining resp) cost))))
     = sleepOf (snd (PkgCanvas.Get api (Completed resp)))) /\
  (forall status cost,
     status <> StatusTooManyRequests ->
     snd (PkgCanvas.Get (NewAPI 700)
        (Completed (mkResponse status (Number 70%float) cost)))
     = Returned (mkResponse status (Number 70%float) cost) (Some (350 * Second)) /\
     snd (PkgCanvas.Get (NewAPI 700)
        (Completed (mkResponse status (Number 420%float) cost)))
     = Returned (mkResponse status (Number 420%float) cost)
                (Some (87500 * Millisecond))).
Proof.
  intros Hmax H429 Hspike quota remaining.
  pose proof (PkgCanvas_Get_ladder api resp H429 Hspike) as Hget.
  pose proof (ladder_after_Get api resp) as Hl. cbn zeta in Hl.
  fold quota in Hl. fold remaining in Hl.
  assert (Htier : forall k, k = 2 \/ k = 4 \/ k = 8 ->
            ladder (fst (PkgCanvas.Get api (Completed resp))) 0
            = div64 (mul64 (maxRateLimit api) Second) k ->
            exists delay,
              snd (PkgCanvas.Get api (Completed resp)) = Returned resp (Some delay) /\
              k * delay = maxRateLimit api * Second).
  { intros k Hk Hv. destruct (tier_value (maxRateLimit api) k Hmax Hk) as [Hm Hr].
    rewrite Hget, Hv.
    destruct (0 <? div64 (mul64 (maxRateLimit api) Second) k) eqn:E.
    - eexists. split; [reflexivity | exact Hm].
    - apply Z.ltb_ge in E. lia. }
  split; [|split; [|split; [|split; [|split]]]].
  - intros H1. apply (Htier 2); [auto|]. rewrite Hl, H1. reflexivity.
  - intros H1 H2. apply (Htier 4); [auto|]. rewrite Hl, H1, H2. reflexivity.
  - intros H1 H2 H3. apply (Htier 8); [auto|]. rewrite Hl, H1, H2, H3. reflexivity.
  - intros H1 H2 H3. rewrite Hget, Hl, H1, H2, H3. reflexivity.
  - intros status cost Hstatus Hcost.
    rewrite Hget.
    rewrite (PkgCanvas_Get_ladder api (mkResponse status (RateLimitRemaining resp) cost))
      by assumption.
    assert (He : ladder (fst (PkgCanvas.Get api
                  (Completed (mkResponse status (RateLimitRemaining resp) cost)))) 0
                 = ladder (fst (PkgCanvas.Get api (Completed resp))) 0).
    { rewrite !PkgCanvas_Get_state. apply ladder_ext;
        [rewrite !observe_maxRateLimit | rewrite !observe_rateLimitRemaining];
        reflexivity. }
    rewrite He.
    destruct (0 <? ladder (fst (PkgCanvas.Get api (Completed resp))) 0); reflexivity.
  - intros status cost Hstatus.
    assert (Hfresh : forall c, costSpike (averageRateCost (NewAPI 700)) c = false)
      by reflexivity.
    split.
    + rewrite PkgCanvas_Get_ladder; [|exact Hstatus|apply Hfresh].
      rewrite ladder_after_Get. cbn zeta.
      rewrite PkgCanvas_Get_state, observe_rateLimitRemaining.
      vm_compute. reflexivity.
    + rewrite PkgCanvas_Get_ladder; [|exact Hstatus|apply Hfresh].
      rewrite ladder_after_Get. cbn zeta.
      rewrite PkgCanvas_Get_state, observe_rateLimitRemaining.
      vm_compute. reflexivity.
Qed.

Lemma ladder_tiers_witness :
  exists delay,
    snd (PkgCanvas.Get warmAPI (Completed lowQuota10))
    = Returned lowQuota10 (Some delay) /\
    2 * delay = maxRateLimit warmAPI * Second.
Proof.
  refine (proj1 (ladder_tiers warmAPI lowQuota10 _ _ _) _).
  - vm_compute. split; discriminate.
  - discriminate.
  - reflexivity.
  - reflexivity.
Defined.

(** ** The default of the remaining quota *)

Lemma halfBelow_checked : allFrom halfBelow 1 (Z.to_nat 100000) = true.
Proof. vm_compute. reflexivity. Qed.

Lemma halfBelow_holds (max : Z) : 1 <= max <= 100000 -> halfBelow max = true.
Proof.
  intros H. apply (allFrom_spec halfBelow _ 1 halfBelow_checked).
  rewrite Z2Nat.id; lia.
Qed.

(** The default wherever half the ceiling converts below the ceiling. *)
Lemma remaining_default (api : APIManager) (resp : Response) (raw : Z) :
  1 <= maxRateLimit api < 2 ^ 63 ->
  halfBelow (maxRateLimit api) = true ->
  snd (ParseFloat (RateLimitRemaining resp)) = true ->
  rateLimitRemaining (fst (Part001.Get api (Completed resp) raw))
  = float64_of_int (Z.quot (maxRateLimit api) 2).
Proof.
  intros Hmax Hlt Herr.
  rewrite Part001_Get_state, observe_rateLimitRemaining.
  unfold Part001.limitOf.
  destruct (ParseFloat (RateLimitRemaining resp)) as [limit err].
  simpl in Herr. subst err.
  change (maxRateLimit (counted api)) with (maxRateLimit api).
  unfold halfBelow in Hlt. rewrite Hlt.
  unfold div64. rewrite wrap64_small; [reflexivity|].
  assert (0 <= Z.quot (maxRateLimit api) 2 <= maxRateLimit api).
  { rewrite Z.quot_div_nonneg by lia. split.
    - apply Z.div_pos; lia.
    - apply Z.div_le_upper_bound; lia. }
  lia.
Qed.

(** The default of [Get] of [unnamed/part_001]: a response whose
    remaining-quota header cannot be parsed leaves [float64(maxRateLimit / 2)]
    as the remaining quota, with the division of integers, and [Get] returns
    the response to its caller. Shown for every ceiling from 1 to 100000. *)
Lemma part_001_default_is_integer_half (api : APIManager) (resp : Response) (raw : Z) :
  1 <= maxRateLimit api <= 100000 ->
  snd (ParseFloat (RateLimitRemaining resp)) = true ->
  rateLimitRemaining (fst (Part001.Get api (Completed resp) raw))
  = float64_of_int (Z.quot (maxRateLimit api) 2) /\
  exists slept, snd (Part001.Get api (Completed resp) raw) = Returned resp slept.
Proof.
  intros Hmax Herr. split; [|apply Get_returns; lia].
  apply remaining_default; [lia | apply halfBelow_holds; exact Hmax | exact Herr].
Qed.

(** [Get] of [pkg/canvas/main.go] discards the parse error and records the
    zero that the parser returns. *)
Example PkgCanvas_unparseable_remaining :
  rateLimitRemaining (fst (PkgCanvas.Get (NewAPI 700) (Completed noHeaders)))
  = 0%float.
Proof. reflexivity. Qed.

(** C3. The code at the failing input: [Get] of [pkg/canvas/main.go]
    discards the error of the parse ([limit, _ :=]) and records the value the
    parser returned. With a ceiling of 700, a response whose remaining-quota
    header is missing or is no number leaves a remaining quota of 0, not
    350, and the cycle sleeps the 350 s of the lowest tier before it returns
    the response; a header too large for a [float64] leaves the full ceiling
    of 700 and no sleep. [Get] of [unnamed/part_001] has the default and
    records [float64(maxRateLimit / 2)], the half of integers: 350 for the
    ceilings 700 and 701, and 0 for the ceiling 1. *)
Theorem remaining_parse_error_discarded :
  ParseFloat (RateLimitRemaining noHeaders) = (0%float, true) /\
  rateLimitRemaining (fst (PkgCanvas.Get (NewAPI 700) (Completed noHeaders)))
  = 0%float /\
  snd (PkgCanvas.Get (NewAPI 700) (Completed noHeaders))
  = Returned noHeaders (Some (350 * Second)) /\
  snd (ParseFloat (RateLimitRemaining hugeRemaining)) = true /\
  rateLimitRemaining (fst (PkgCanvas.Get (NewAPI 700) (Completed hugeRemaining)))
  = 700%float /\
  snd (PkgCanvas.Get (NewAPI 700) (Completed hugeRemaining))
  = Returned hugeRemaining None /\
  rateLimitRemaining (fst (Part001.Get (NewAPI 700) (Completed noHeaders) 0))
  = 350%float /\
  rateLimitRemaining (fst (Part001.Get (NewAPI 701) (Completed noHeaders) 0))
  = 350%float /\
  rateLimitRemaining (fst (Part001.Get (NewAPI 1) (Completed noHeaders) 0))
  = 0%float.
Proof.
  repeat split; vm_compute; reflexivity.
Qed.

(** ** The running average *)

(** The update of the average after a positive cost: the divisor is the
    number of requests sent, [requestSendCount], this one included. *)
Lemma Get_average (api : APIManager) (resp : Response) (raw : Z) :
  (0 <? Part001.costOf api resp)%float = true ->
  averageRateCost (fst (Part001.Get api (Completed resp) raw))
  = (averageRateCost api
     + (Part001.costOf api resp - averageRateCost api)
       / float64_of_int (add64 (requestSendCount api) 1))%float.
Proof.
  intros Hpos. rewrite Part001_Get_state, observe_averageRateCost.
  change (Part001.costOf (counted api) resp) with (Part001.costOf api resp).
  rewrite Hpos. reflexivity.
Qed.

(** The number of responses among the outcomes of a run. *)
Lemma run_counts (events : list (outcome * Z)) :
  forall api,
    0 <= requestSendCount api -> 0 <= responseReceivedCount api ->
    responseReceivedCount api <= requestSendCount api ->
    requestSendCount api + Z.of_nat (List.length events) < 2 ^ 63 ->
    requestSendCount (Part001.run api events)
    = requestSendCount api + Z.of_nat (List.length events) /\
    responseReceivedCount (Part001.run api events)
    = responseReceivedCount api
      + Z.of_nat (List.length
          (filter (fun e => match fst e with Completed _ => true | _ => false end)
                  events)).
Proof.
  induction events as [|[o raw] rest IH]; intros api Hs Hr Hle Hfit.
  - simpl. lia.
  - cbn [Part001.run List.length filter fst] in *.
    rewrite Nat2Z.inj_succ in Hfit.
    assert (Hsend : requestSendCount (fst (Part001.Get api o raw))
                    = requestSendCount api + 1).
    { destruct o; [| |rewrite Part001_Get_state, observe_requestSendCount];
        cbn; unfold add64; rewrite ?wrap64_small; lia. }
    assert (Hrecv : responseReceivedCount (fst (Part001.Get api o raw))
                    = responseReceivedCount api
                      + match o with Completed _ => 1 | _ => 0 end).
    { destruct o; [| |rewrite Part001_Get_state, observe_responseReceivedCount];
        cbn; unfold add64; rewrite ?wrap64_small; lia. }
    destruct (IH (fst (Part001.Get api o raw))) as [IHs IHr];
      [destruct o; lia ..|].
    rewrite IHs, IHr, Hsend, Hrecv.
    destruct o; cbn [List.length]; rewrite ?Nat2Z.inj_succ; lia.
Qed.

(** C5. The code at the failing input: the first request gets no response
    and the second a cost of 10; one response has been received and two
    requests sent, and the average is 5, the cost divided by the requests
    sent, not the cost itself. After costs 10 and 16 with a lost request
    between them the average is 12, not their mean 13. Both revisions. *)
Theorem average_divides_by_requests_sent :
  let api1 := Part001.run (NewAPI 700) [(DoError, 0); (Completed plain10, 0)] in
  let api2 := Part001.run (NewAPI 700)
                [(Completed plain10, 0); (DoError, 0); (Completed plain16, 0)] in
  let old1 := fst (PkgCanvas.Get (fst (PkgCanvas.Get (NewAPI 700) DoError))
                                 (Completed plain10)) in
  (requestSendCount api1 = 2 /\ responseReceivedCount api1 = 1 /\
   averageRateCost api1 = 5%float) /\
  (requestSendCount api2 = 3 /\ responseReceivedCount api2 = 2 /\
   averageRateCost api2 = 12%float) /\
  averageRateCost old1 = 5%float.
Proof. vm_compute. repeat split. Qed.

(** ** The jitter *)

(** The jitter is the draw below a quarter of the delay, taken as a number
    of milliseconds although the delay counts nanoseconds. *)
Lemma jitter_value (delay raw : Z) :
  4 <= delay <= 36893488147419 ->
  Part001.jitterOf delay raw = Some ((raw mod (delay / 4)) * 1000000) /\
  0 <= raw mod (delay / 4) < delay / 4.
Proof.
  intros Hd.
  assert (Hq : 1 <= delay / 4 < 9223372036855).
  { split; [apply Z.div_le_lower_bound; lia|].
    apply Z.div_lt_upper_bound; lia. }
  assert (Hr : 0 <= raw mod (delay / 4) < delay / 4)
    by (apply Z.mod_pos_bound; lia).
  split; [|exact Hr].
  rewrite jitterOf_defined by lia. unfold mul64, Millisecond.
  rewrite wrap64_small by lia. reflexivity.
Qed.

(** A cycle with no delay does not sleep. *)
Lemma no_delay_no_sleep (api : APIManager) (resp : Response) (raw : Z) :
  Part001.delayOf api resp = 0 ->
  snd (Part001.Get api (Completed resp) raw) = Returned resp None.
Proof.
  intros H0. rewrite Part001_Get_result, H0. reflexivity.
Qed.

(** C6. The code at the failing input: the delay of the cycle is 30 s and
    the draw is 7499999999, below a quarter of the delay in nanoseconds;
    [Get] sleeps 7500029999 s, the delay and a jitter of 7499999999 ms,
    far above the delay and a quarter of it (37.5 s). *)
Theorem jitter_exceeds_quarter :
  Part001.delayOf warmAPI lowQuotaSpike = 30 * Second /\
  snd (Part001.Get warmAPI (Completed lowQuotaSpike) 7499999999)
  = Returned lowQuotaSpike (Some (30 * Second + 7499999999 * Millisecond)) /\
  30 * Second + Z.quot (30 * Second) 4
  < 30 * Second + 7499999999 * Millisecond.
Proof. vm_compute. repeat split. Qed.

End CanvasFacts.

(** * Properties of the course listing *)

Module PaginationFacts.
Import Strings App Scenarios.
Local Open Scope string_scope.
Local Open Scope list_scope.

(** One turn of the loop on a page that arrives and decodes. *)
Lemma pageLoop_goodPage baseURL page rest ep courses :
  CmdApp.pageLoop baseURL (CmdApp.goodPage page :: rest) ep courses
  = if String.eqb (CmdApp.continuation baseURL (snd page)) ""
    then Listed (courses ++ fst page)
    else CmdApp.pageLoop baseURL rest (CmdApp.continuation baseURL (snd page))
                         (courses ++ fst page).
Proof.
  destruct page as [items link]. unfold CmdApp.continuation. simpl.
  destruct (String.eqb link ""); reflexivity.
Qed.

(** While every page names a continuation the loop goes on, requesting the
    continuation of the page before and appending the items of each page. *)
Lemma pageLoop_follows baseURL pages :
  forall rest ep courses,
    Forall (fun page => CmdApp.continuation baseURL (snd page) <> "") pages ->
    CmdApp.pageLoop baseURL (map CmdApp.goodPage pages ++ rest) ep courses
    = CmdApp.pageLoop baseURL rest (CmdApp.lastContinuation baseURL pages ep)
                      (courses ++ List.concat (map fst pages)).
Proof.
  induction pages as [|page pages IH]; intros rest ep courses Hall.
  - simpl. rewrite app_nil_r. reflexivity.
  - inversion Hall as [|? ? Hpage Hpages]; subst.
    cbn [map app]. rewrite pageLoop_goodPage.
    apply String.eqb_neq in Hpage. rewrite Hpage.
    rewrite IH by assumption.
    cbn [map List.concat CmdApp.lastContinuation fold_left].
    rewrite <- app_assoc. reflexivity.
Qed.

(** A listing that ends without error ended on a page without continuation,
    reached through pages that each named one. *)
Lemma pageLoop_Listed_inv baseURL pages :
  forall ep courses listed,
    CmdApp.pageLoop baseURL pages ep courses = Listed listed ->
    exists before items link rest,
      pages = map CmdApp.goodPage before ++ CmdApp.goodPage (items, link) :: rest /\
      Forall (fun page => CmdApp.continuation baseURL (snd page) <> "") before /\
      CmdApp.continuation baseURL link = "" /\
      listed = (courses ++ List.concat (map fst before) ++ items)%list.
Proof.
  induction pages as [|got pages IH]; intros ep courses listed Hrun.
  - discriminate.
  - destruct got as [resp|]; [|discriminate].
    destruct resp as [status decoded link].
    cbn [CmdApp.pageLoop Status Decoded Link] in Hrun.
    destruct (status =? 200)%Z eqn:Hstatus; [|discriminate].
    cbn [negb] in Hrun.
    destruct decoded as [items|]; [|discriminate].
    apply Z.eqb_eq in Hstatus. subst status.
    change (Some (mkHttp 200 (Some items) link))
      with (CmdApp.goodPage (items, link)).
    fold (CmdApp.continuation baseURL link) in Hrun.
    assert (Hstep :
      (if String.eqb (CmdApp.continuation baseURL link) ""
       then Listed (courses ++ items)
       else CmdApp.pageLoop baseURL pages (CmdApp.continuation baseURL link)
                            (courses ++ items)) = Listed listed).
    { rewrite <- Hrun. unfold CmdApp.continuation.
      destruct (String.eqb link ""); reflexivity. }
    clear Hrun.
    destruct (String.eqb (CmdApp.continuation baseURL link) "") eqn:Hstop.
    + apply String.eqb_eq in Hstop. inversion Hstep; subst.
      exists [], items, link, pages. repeat split; auto.
    + apply String.eqb_neq in Hstop.
      destruct (IH _ _ _ Hstep) as (before & items' & link' & rest & Hp & Hb & Hc & Hl).
      exists ((items, link) :: before), items', link', rest.
      repeat split; auto.
      * rewrite Hp. reflexivity.
      * rewrite Hl. cbn [map List.concat fst]. rewrite <- !app_assoc. reflexivity.
Qed.

(** The continuation a [Link] header gives: the target of its first part
    that contains [rel="next"], without the base URL. *)
Lemma scanNext_firstNext baseURL parts ep :
  CmdApp.scanNext baseURL parts ep
  = match find (fun part => Contains part relNext) parts with
    | Some part => fst (CutPrefix (linkTarget part) baseURL)
    | None => ep
    end.
Proof.
  induction parts as [|part parts IH]; [reflexivity|].
  simpl. destruct (Contains part relNext); [reflexivity | exact IH].
Qed.

Lemma continuation_firstNext baseURL link :
  CmdApp.continuation baseURL link
  = if String.eqb link "" then ""
    else match CmdApp.firstNext link with
         | Some part => fst (CutPrefix (linkTarget part) baseURL)
         | None => ""
         end.
Proof.
  unfold CmdApp.continuation, CmdApp.firstNext.
  rewrite scanNext_firstNext. reflexivity.
Qed.

(** C7, the claim as stated fails: the first page carries a [Link] header
    whose only segment has the relation next, with an empty target, and a
    second page is there to be read; the listing stops after the first page
    and returns its items without error. *)
Lemma empty_next_target_stops :
  CmdApp.firstNext emptyNextLink = Some emptyNextLink /\
  CmdApp.getCourses testBase
    [CmdApp.goodPage ([courseA], emptyNextLink); CmdApp.goodPage ([courseB], "")]
    "6253-"
  = Listed [courseA].
Proof. split; reflexivity. Qed.

(** C7, amended: [getCourses] of [cmd/app/main.go] returns a collection
    without error exactly when the pages it is given start with pages of
    status 200 that decode and that each name a non-empty continuation,
    followed by such a page that names none; the collection is then the items
    of these pages in page order. A page names no continuation when its link
    header is empty, when no part of it contains [rel="next"], or when the
    target of the first such part is empty once trimmed and without the
    base URL; otherwise that target is the continuation, and it is the
    endpoint requested next. Three pages that each advertise the next are
    collected in order. *)
Theorem pagination_collects (baseURL search : string) :
  (forall pages listed,
     CmdApp.getCourses baseURL pages search = Listed listed <->
     exists before items link rest,
       pages = map CmdApp.goodPage before ++ CmdApp.goodPage (items, link) :: rest /\
       Forall (fun page => CmdApp.continuation baseURL (snd page) <> "") before /\
       CmdApp.continuation baseURL link = "" /\
       listed = (List.concat (map fst before) ++ items)%list) /\
  (forall link,
     CmdApp.continuation baseURL link = "" <->
     link = "" \/ CmdApp.firstNext link = None \/
     exists part, CmdApp.firstNext link = Some part /\
                  fst (CutPrefix (linkTarget part) baseURL) = "") /\
  (forall before,
     Forall (fun page => CmdApp.continuation baseURL (snd page) <> "") before ->
     CmdApp.getCourses baseURL (map CmdApp.goodPage before) search
     = NextRequest (CmdApp.lastContinuation baseURL before (firstEndpoint search))
                   (List.concat (map fst before))) /\
  CmdApp.getCourses testBase (map CmdApp.goodPage threePages) "6253-"
  = Listed [courseA; courseB; courseC].
Proof.
  split; [|split; [|split; [|reflexivity]]].
  - intros pages listed. split.
    + intros Hrun. unfold CmdApp.getCourses in Hrun.
      destruct (pageLoop_Listed_inv _ _ _ _ _ Hrun)
        as (before & items & link & rest & Hp & Hb & Hc & Hl).
      exists before, items, link, rest. auto.
    + intros (before & items & link & rest & Hp & Hb & Hc & Hl). subst.
      unfold CmdApp.getCourses.
      rewrite pageLoop_follows by assumption.
      rewrite pageLoop_goodPage. cbn [fst snd]. rewrite Hc.
      reflexivity.
  - intros link. split.
    + intros Hc. rewrite continuation_firstNext in Hc.
      destruct (String.eqb link "") eqn:Hl; [apply String.eqb_eq in Hl; auto|].
      destruct (CmdApp.firstNext link) as [part|]; [|auto].
      right. right. exists part. auto.
    + intros [Hl|[Hn|(part & Hp & Ht)]]; rewrite continuation_firstNext.
      * subst. reflexivity.
      * rewrite Hn. destruct (String.eqb link ""); reflexivity.
      * rewrite Hp, Ht. destruct (String.eqb link ""); reflexivity.
  - intros before Hb. unfold CmdApp.getCourses.
    rewrite <- (app_nil_r (map CmdApp.goodPage before)).
    rewrite pageLoop_follows by assumption. reflexivity.
Qed.

(** The earlier revision goes on in the loop over the parts ([continue]
    where the comment says break): a part after the next one stops the
    listing, where [cmd/app/main.go] requests the second page. *)
Example Part002_stops_after_next :
  Part002.getCourses
    [CmdApp.goodPage ([courseA], canvasLink); CmdApp.goodPage ([courseB], "")]
    "6253-"
  = Listed [courseA] /\
  CmdApp.getCourses testBase
    [CmdApp.goodPage ([courseA], canvasLink); CmdApp.goodPage ([courseB], "")]
    "6253-"
  = Listed [courseA; courseB].
Proof. split; reflexivity. Qed.

End PaginationFacts.

(** * Properties of the report *)

Module ReportFacts.
Import Strings App Scenarios.
Local Open Scope string_scope.
Local Open Scope list_scope.

Lemma filter_twice {A : Type} (f g : A -> bool) (l : list A) :
  filter g (filter f l) = filter (fun x => f x && g x) l.
Proof.
  induction l as [|x l IH]; [reflexivity|].
  simpl. destruct (f x); simpl; [destruct (g x)|]; rewrite IH; reflexivity.
Qed.

(** The second loop of [main]: one row for each course in the state tested,
    in order, and the requests of these courses only. *)
Lemma probeAll_rows remote state courseList :
  probeAll remote state courseList
  = (map (fun course => fst (auditCourse remote course))
         (filter (fun course => String.eqb (WorkflowState course) state) courseList),
     flat_map (fun course => snd (auditCourse remote course))
         (filter (fun course => String.eqb (WorkflowState course) state) courseList)).
Proof.
  induction courseList as [|course rest IH]; [reflexivity|].
  cbn [probeAll filter]. rewrite IH.
  destruct (String.eqb (WorkflowState course) state); [|reflexivity].
  cbn [map flat_map].
  destruct (auditCourse remote course) as [result reqs]. reflexivity.
Qed.





(** Of the three courses of the catalog only the first is selected: the
    second is available and the third belongs to another term. *)
Example three_page_run :
  CmdApp.main testBase threePageRemote
  = CmdApp.Wrote
      [header;
       ["11,"; "Algebra,"; "MATH,"; "Yes,"; "No,"; ","; "No Faculty,No Email"]]
      [mkResult 11 "Algebra" "MATH" "" "Yes" "No" "" "No Faculty" "No Email"]
      [ReqModules 11; ReqAssignments 11; ReqTeachers 11].
Proof. reflexivity. Qed.

(** C9. The code at the failing input: the record handed to the CSV writer
    for a row has seven fields under a header of eight; each of the first
    six is a value followed by a comma of its own, and the seventh holds the
    faculty name, a comma and the faculty email. For the course of the
    specification's scenario the file is the header and one such record. *)
Theorem record_has_seven_fields (result : ResultItem) :
  List.length (CmdApp.recordOf result) = 7%nat /\
  List.length header = 8%nat /\
  nth 0 (CmdApp.recordOf result) "" = (itoa (CourseID result) ++ ",")%string /\
  nth 5 (CmdApp.recordOf result) "" = (WithFrontPage result ++ ",")%string /\
  nth 6 (CmdApp.recordOf result) ""
    = ((FacultyName result ++ ",") ++ FacultyEmail result)%string /\
  CmdApp.main testBase scenarioRemote
  = CmdApp.Wrote
      [header;
       ["1,"; "English 201,"; "ENG,"; "No,"; "No,"; "No,"; "Ada Byron,No Email"]]
      [mkResult 1 "English 201" "ENG" "" "No" "No" "No" "Ada Byron" "No Email"]
      [ReqModules 1; ReqFrontPage 1; ReqAssignments 1; ReqTeachers 1].
Proof. repeat split. Qed.

(** The earlier revision writes the header and nothing else, and keeps the
    courses whose state is "unavailable". *)
Example Part002_writes_header_only :
  Part002.main scenarioRemote = CmdApp.Wrote [header] [] [].
Proof. reflexivity. Qed.

(** C10, the claim as stated fails: for a course whose default view is
    "modules" the field is empty, and the cell handed to the CSV writer in
    the column of the front page is a comma, not an empty cell. *)
Lemma front_page_cell_is_comma :
  WithFrontPage (fst (auditCourse threePageRemote courseA)) = "" /\
  nth 5 (CmdApp.recordOf (fst (auditCourse threePageRemote courseA))) "" = "," /\
  nth 5 (CmdApp.recordOf (fst (auditCourse threePageRemote courseA))) "" <> "".
Proof. repeat split. discriminate. Qed.

(** C10, amended: for a course whose default view is not "wiki" no
    front-page request is issued and the field [WithFrontPage] of its row
    stays at the zero value of a string, the empty string, which is neither
    "Yes" nor "No" nor "Error". *)
Theorem front_page_left_empty (remote : Remote) (course : CanvasCourse) :
  String.eqb (DefaultViewType course) "wiki" = false ->
  WithFrontPage (fst (auditCourse remote course)) = "" /\
  (forall courseID, ~ In (ReqFrontPage courseID) (snd (auditCourse remote course))) /\
  WithFrontPage (fst (auditCourse remote course)) <> "Yes" /\
  WithFrontPage (fst (auditCourse remote course)) <> "No" /\
  WithFrontPage (fst (auditCourse remote course)) <> "Error".
Proof.
  intros Hview.
  assert (Hfield : WithFrontPage (fst (auditCourse remote course)) = "").
  { unfold auditCourse. rewrite Hview.
    destruct (getCourseModules remote (ID course)) as [[] []];
    destruct (getCourseAssignments remote (ID course)) as [[] []];
    destruct (getCourseTeachers remote (ID course)) as [teachers []];
    try destruct (0 <? Z.of_nat (List.length teachers))%Z; reflexivity. }
  rewrite Hfield. repeat split; try discriminate.
  intros courseID Hin. unfold auditCourse in Hin. rewrite Hview in Hin.
  destruct (getCourseModules remote (ID course)) as [mods err1].
  destruct (getCourseAssignments remote (ID course)) as [asngs err3].
  destruct (getCourseTeachers remote (ID course)) as [teachers err4].
  cbn [snd app] in Hin.
  repeat (destruct Hin as [Hin|Hin]; [discriminate|]). exact Hin.
Qed.

Lemma front_page_left_empty_witness :
  WithFrontPage (fst (auditCourse threePageRemote courseA)) = "".
Proof.
  apply (proj1 (front_page_left_empty threePageRemote courseA eq_refl)).
Defined.

End ReportFacts.

(** * Further properties of the API manager *)

Module GovernorFacts.
Import Go Canvas Scenarios Shapes CanvasFacts.

(** ** 64-bit arithmetic *)

Lemma wrap64_range (z : Z) : - 2 ^ 63 <= wrap64 z < 2 ^ 63.
Proof.
  unfold wrap64. pose proof (Z.mod_pos_bound (z + 2 ^ 63) (2 ^ 64)). lia.
Qed.

Lemma wrap64_mod512 (z : Z) : wrap64 z mod 512 = z mod 512.
Proof.
  unfold wrap64.
  replace ((z + 2 ^ 63) mod 2 ^ 64 - 2 ^ 63)
    with ((z + 2 ^ 63) mod 2 ^ 64 + (- 2 ^ 54) * 512) by lia.
  rewrite Z.mod_add by lia.
  rewrite Z.mod_mod_divide by (exists (2 ^ 55); lia).
  replace (z + 2 ^ 63) with (z + 2 ^ 54 * 512) by lia.
  apply Z.mod_add. lia.
Qed.

(** The ceiling in nanoseconds is a multiple of 512 also when the product
    wraps around. *)
Lemma seconds_mod512 (max : Z) : mul64 max Second mod 512 = 0.
Proof.
  unfold mul64, Second. rewrite wrap64_mod512.
  replace (max * 1000000000) with (max * 1953125 * 512) by lia.
  apply Z.mod_mul. lia.
Qed.

(** A tier of the ladder is never a positive delay below 64 ns. *)
Lemma tier_not_tiny (max k : Z) :
  k = 2 \/ k = 4 \/ k = 8 ->
  div64 (mul64 max Second) k <= 0 \/
  64 <= div64 (mul64 max Second) k < 2 ^ 63.
Proof.
  intros Hk.
  pose proof (seconds_mod512 max) as Hm.
  pose proof (wrap64_range (max * Second)) as Hr.
  fold (mul64 max Second) in Hr.
  set (w := mul64 max Second) in *.
  unfold div64.
  destruct (Z_le_gt_dec w 0) as [Hneg|Hpos].
  - left.
    assert (Z.quot w k <= 0).
    { apply Z.quot_le_upper_bound; lia. }
    assert (- 2 ^ 63 <= Z.quot w k).
    { rewrite <- (Z.opp_involutive w), Z.quot_opp_l by lia.
      assert (0 <= Z.quot (- w) k <= - w).
      { rewrite Z.quot_div_nonneg by lia. split.
        - apply Z.div_pos; lia.
        - apply Z.div_le_upper_bound; [lia|]. nia. }
      lia. }
    rewrite wrap64_small by lia. lia.
  - right.
    assert (Hw : 512 <= w).
    { apply Z.mod_divide in Hm; [|lia]. destruct Hm as [q Hq]. lia. }
    rewrite Z.quot_div_nonneg by lia.
    assert (64 <= w / k).
    { apply Z.div_le_lower_bound; lia. }
    assert (w / k <= w).
    { apply Z.div_le_upper_bound; [lia|]. nia. }
    rewrite wrap64_small by lia. lia.
Qed.

(** The delay of a cycle is never a positive delay below 64 ns, whatever
    the ceiling. *)
Lemma delayOf_not_tiny (api : APIManager) (resp : Response) :
  Part001.delayOf api resp <= 0 \/ 64 <= Part001.delayOf api resp < 2 ^ 63.
Proof.
  unfold Part001.delayOf, spike, tooMany.
  destruct (costSpike _ _); [right; vm_compute; split; [discriminate|reflexivity]|].
  destruct (_ =? _); [right; vm_compute; split; [discriminate|reflexivity]|].
  match goal with |- context [ladder ?a 0] =>
    destruct (ladder_cases a) as [H|[H|[H|H]]]; rewrite H
  end.
  - apply tier_not_tiny; auto.
  - apply tier_not_tiny; auto.
  - apply tier_not_tiny; auto.
  - left. lia.
Qed.

(** X1. [Get] of [unnamed/part_001] never panics: [rand.Int63n] is only
    called with a positive bound, for every ceiling, also one whose product
    with [time.Second] wraps around, every outcome and every draw. *)
Theorem Get_never_panics (api : APIManager) (o : outcome) (raw : Z) :
  snd (Part001.Get api o raw) <> Panicked.
Proof.
  destruct o as [| |resp]; [discriminate | discriminate |].
  rewrite Part001_Get_result.
  destruct (delayOf_not_tiny api resp) as [Hle|Hd].
  - destruct (0 <? Part001.delayOf api resp) eqn:E; [|discriminate].
    apply Z.ltb_lt in E. lia.
  - destruct (0 <? Part001.delayOf api resp); [|discriminate].
    rewrite jitterOf_defined by lia. discriminate.
Qed.

(** ** The remaining quota *)

Lemma SFltb_irrefl (x : spec_float) : SFltb x x = false.
Proof.
  unfold SFltb. destruct x as [s|s| |s m e]; simpl; try reflexivity.
  - destruct s; reflexivity.
  - destruct s; rewrite Z.compare_refl;
      change (Pos.compare_cont Eq m m) with (Pos.compare m m);
      rewrite Pos.compare_refl; reflexivity.
Qed.

Lemma SFltb_asym (x y : spec_float) : SFltb x y = true -> SFltb y x = false.
Proof.
  unfold SFltb.
  destruct x as [s|s| |s m e]; destruct y as [s'|s'| |s' m' e']; simpl;
    try discriminate; try reflexivity;
    try (destruct s; try discriminate; try reflexivity;
         destruct s'; try discriminate; reflexivity);
    try (destruct s'; try discriminate; reflexivity).
  destruct s, s'; try discriminate; try reflexivity;
    rewrite (Z.compare_antisym e e');
    change (Pos.compare_cont Eq m' m) with (Pos.compare m' m);
    change (Pos.compare_cont Eq m m') with (Pos.compare m m');
    rewrite (Pos.compare_antisym m m');
    destruct (e ?= e'); simpl; try discriminate; try reflexivity;
    destruct (m ?= m')%positive; simpl; try discriminate; reflexivity.
Qed.

(** What [Get] records is never above what it is compared with. *)
Lemma clamp_not_above (limit quota : float) :
  (quota <? (if (limit <? quota)%float then limit else quota))%float = false.
Proof.
  destruct (limit <? quota)%float eqn:E.
  - rewrite ltb_spec in *. apply SFltb_asym. exact E.
  - rewrite ltb_spec. apply SFltb_irrefl.
Qed.

(** X2. After every response the remaining quota recorded is not above the
    ceiling, whatever the header holds (a larger number, an infinity, a
    text that is no number), in both revisions of [Get]. *)
Theorem remaining_never_above_ceiling (api : APIManager) (resp : Response) (raw : Z) :
  (float64_of_int (maxRateLimit api)
   <? rateLimitRemaining (fst (Part001.Get api (Completed resp) raw)))%float = false /\
  (float64_of_int (maxRateLimit api)
   <? rateLimitRemaining (fst (PkgCanvas.Get api (Completed resp))))%float = false.
Proof.
  rewrite Part001_Get_state, PkgCanvas_Get_state, !observe_rateLimitRemaining.
  change (maxRateLimit (counted api)) with (maxRateLimit api).
  split; apply clamp_not_above.
Qed.

(** ** Runs of requests *)

Lemma Get_maxRateLimit (api : APIManager) (o : outcome) (raw : Z) :
  maxRateLimit (fst (Part001.Get api o raw)) = maxRateLimit api.
Proof.
  destruct o; [reflexivity | reflexivity |].
  rewrite Part001_Get_state, observe_maxRateLimit. reflexivity.
Qed.

Lemma run_maxRateLimit (events : list (outcome * Z)) :
  forall api, maxRateLimit (Part001.run api events) = maxRateLimit api.
Proof.
  induction events as [|[o raw] rest IH]; intros api; [reflexivity|].
  cbn [Part001.run]. rewrite IH. apply Get_maxRateLimit.
Qed.

Lemma run_app (before after : list (outcome * Z)) :
  forall api,
    Part001.run api (before ++ after) = Part001.run (Part001.run api before) after.
Proof.
  induction before as [|[o raw] rest IH]; intros api; [reflexivity|].
  cbn [app Part001.run]. apply IH.
Qed.

Lemma filter_length_bound {A : Type} (f : A -> bool) (l : list A) :
  (List.length (filter f l) <= List.length l)%nat.
Proof.
  induction l as [|x l IH]; [apply Nat.le_refl|].
  simpl. destruct (f x); simpl; lia.
Qed.

(** X3. In a run that starts from [NewAPI], [requestSendCount] is the
    number of requests made and [responseReceivedCount] the number of those
    that got a response, so the second is never above the first; the
    ceiling is the one the manager was created with. *)
Theorem run_counters (rateLimitMax : Z) (events : list (outcome * Z)) :
  Z.of_nat (List.length events) < 2 ^ 63 ->
  let api := Part001.run (NewAPI rateLimitMax) events in
  requestSendCount api = Z.of_nat (List.length events) /\
  responseReceivedCount api = Z.of_nat (List.length (filter isCompleted events)) /\
  responseReceivedCount api <= requestSendCount api /\
  maxRateLimit api = rateLimitMax.
Proof.
  intros Hfit api.
  destruct (run_counts events (NewAPI rateLimitMax)) as [Hs Hr];
    [cbn; lia ..|].
  fold api in Hs, Hr. cbn [NewAPI requestSendCount responseReceivedCount] in Hs, Hr.
  assert (Hrecv : responseReceivedCount api
                  = Z.of_nat (List.length (filter isCompleted events))).
  { rewrite Hr. reflexivity. }
  repeat split.
  - lia.
  - exact Hrecv.
  - rewrite Hrecv, Hs. pose proof (filter_length_bound isCompleted events). lia.
  - unfold api. apply run_maxRateLimit.
Qed.

Lemma run_counters_witness :
  requestSendCount
    (Part001.run (NewAPI 700)
       [(Completed plain10, 0); (DoError, 0); (Completed plain16, 0)]) = 3.
Proof.
  refine (proj1 (run_counters 700
            [(Completed plain10, 0); (DoError, 0); (Completed plain16, 0)] _)).
  vm_compute. reflexivity.
Defined.

(** X4. The remaining quota keeps no history: after any run, it is what the
    last response alone gives, its header value (or the default) when that
    is below the ceiling and the ceiling otherwise. *)
Theorem remaining_is_memoryless (api : APIManager) (events : list (outcome * Z))
        (resp : Response) (raw : Z) :
  rateLimitRemaining (Part001.run api (events ++ [(Completed resp, raw)]))
  = rateLimitRemaining (fst (Part001.Get api (Completed resp) raw)).
Proof.
  rewrite run_app. cbn [Part001.run].
  rewrite !Part001_Get_state, !observe_rateLimitRemaining.
  change (maxRateLimit (counted (Part001.run api events)))
    with (maxRateLimit (Part001.run api events)).
  change (maxRateLimit (counted api)) with (maxRateLimit api).
  unfold Part001.limitOf.
  change (maxRateLimit (counted (Part001.run api events)))
    with (maxRateLimit (Part001.run api events)).
  change (maxRateLimit (counted api)) with (maxRateLimit api).
  rewrite run_maxRateLimit. reflexivity.
Qed.

(** ** The average without costs *)

Lemma Get_keeps_zero_average (api : APIManager) (event : outcome * Z) :
  averageRateCost api = 0%float -> bringsNoCost event = true ->
  averageRateCost (fst (Part001.Get api (fst event) (snd event))) = 0%float.
Proof.
  intros Hz Hno. destruct event as [o raw]. cbn [fst snd].
  destruct o as [| |resp]; [exact Hz | exact Hz |].
  rewrite Part001_Get_state, observe_averageRateCost.
  unfold bringsNoCost in Hno. cbn [fst] in Hno.
  unfold Part001.costOf.
  destruct (ParseFloat (RequestCost resp)) as [cost err].
  cbn [snd] in Hno. subst err.
  change (averageRateCost (counted api)) with (averageRateCost api).
  rewrite Hz. reflexivity.
Qed.

Lemma run_keeps_zero_average (events : list (outcome * Z)) :
  forall api,
    averageRateCost api = 0%float ->
    forallb bringsNoCost events = true ->
    averageRateCost (Part001.run api events) = 0%float.
Proof.
  induction events as [|[o raw] rest IH]; intros api Hz Hall; [exact Hz|].
  cbn [forallb] in Hall. apply andb_prop in Hall. destruct Hall as [Hno Hrest].
  cbn [Part001.run]. apply IH; [|exact Hrest].
  apply (Get_keeps_zero_average api (o, raw)); assumption.
Qed.

(** With an average of 0 the delay is the one of the ladder and of the 429
    rule. *)
Lemma zero_average_no_spike (api : APIManager) (resp : Response) :
  averageRateCost api = 0%float ->
  Part001.delayOf api resp
  = tooMany resp (ladder (fst (Part001.Get api (Completed resp) 0)) 0).
Proof.
  intros Hz.
  rewrite Part001_Get_state. unfold Part001.delayOf, spike. cbn zeta.
  change (averageRateCost (set_requestSendCount _ api)) with (averageRateCost api).
  rewrite Hz. reflexivity.
Qed.

(** X5. While no response has brought a cost header that parses, the
    average stays 0 and the 30-second rule cannot fire: the delay of the next
    cycle is the one of the ladder and of the 429 rule, whatever the cost of
    that response. In particular the first request of a run is never delayed
    for its cost. *)
Theorem no_cost_no_spike (rateLimitMax : Z) (events : list (outcome * Z))
        (resp : Response) :
  forallb bringsNoCost events = true ->
  let api := Part001.run (NewAPI rateLimitMax) events in
  averageRateCost api = 0%float /\
  Part001.delayOf api resp
  = tooMany resp (ladder (fst (Part001.Get api (Completed resp) 0)) 0).
Proof.
  intros Hall api.
  assert (Hz : averageRateCost api = 0%float).
  { unfold api. apply run_keeps_zero_average; [reflexivity | exact Hall]. }
  split; [exact Hz|]. apply zero_average_no_spike. exact Hz.
Qed.

Lemma no_cost_no_spike_witness :
  averageRateCost
    (Part001.run (NewAPI 700) [(Completed noHeaders, 0); (DoError, 0)]) = 0%float.
Proof.
  refine (proj1 (no_cost_no_spike 700 [(Completed noHeaders, 0); (DoError, 0)]
                                  lowQuotaSpike _)).
  reflexivity.
Defined.

(** ** What is slept *)

Lemma PkgCanvas_Get_result (api : APIManager) (resp : Response) :
  headersParse resp = true ->
  fst (PkgCanvas.Get api (Completed resp))
  = fst (Part001.Get api (Completed resp) 0) /\
  snd (PkgCanvas.Get api (Completed resp))
  = if 0 <? Part001.delayOf api resp
    then Returned resp (Some (Part001.delayOf api resp))
    else Returned resp None.
Proof.
  intros Hparse. unfold headersParse in Hparse.
  apply andb_prop in Hparse. destruct Hparse as [Hl Hc].
  apply negb_true_iff in Hl. apply negb_true_iff in Hc.
  assert (Hlimit : forall a, Part001.limitOf a resp
                             = fst (ParseFloat (RateLimitRemaining resp))).
  { intros a. unfold Part001.limitOf.
    destruct (ParseFloat (RateLimitRemaining resp)) as [l e].
    cbn [snd] in Hl. subst e. reflexivity. }
  assert (Hcost : forall a, Part001.costOf a resp
                            = fst (ParseFloat (RequestCost resp))).
  { intros a. unfold Part001.costOf.
    destruct (ParseFloat (RequestCost resp)) as [c e].
    cbn [snd] in Hc. subst e. reflexivity. }
  split.
  - rewrite Part001_Get_state, PkgCanvas_Get_state, Hlimit, Hcost. reflexivity.
  - unfold PkgCanvas.Get, Part001.delayOf. cbn zeta.
    rewrite Hlimit, Hcost.
    match goal with |- context [if ?c then _ else _] => destruct c end; reflexivity.
Qed.

(** X6. On a response whose two rate headers parse, the two revisions of
    [Get] leave the same manager and compute the same delay: the first
    revision sleeps that delay, the second that delay and its jitter. *)
Theorem revisions_agree_on_parsed_headers (api : APIManager) (resp : Response)
        (raw : Z) :
  headersParse resp = true ->
  fst (PkgCanvas.Get api (Completed resp))
  = fst (Part001.Get api (Completed resp) raw) /\
  (snd (PkgCanvas.Get api (Completed resp)) = Returned resp None <->
   snd (Part001.Get api (Completed resp) raw) = Returned resp None) /\
  (forall delay,
     snd (PkgCanvas.Get api (Completed resp)) = Returned resp (Some delay) ->
     exists jitter,
       Part001.jitterOf delay raw = Some jitter /\
       snd (Part001.Get api (Completed resp) raw)
       = Returned resp (Some (add64 delay jitter))).
Proof.
  intros Hparse.
  destruct (PkgCanvas_Get_result api resp Hparse) as [Hstate Hres].
  split; [|split].
  - rewrite Hstate, !Part001_Get_state. reflexivity.
  - rewrite Hres, Part001_Get_result.
    destruct (delayOf_not_tiny api resp) as [Hle|Hd].
    + destruct (0 <? Part001.delayOf api resp) eqn:E;
        [apply Z.ltb_lt in E; lia | tauto].
    + destruct (0 <? Part001.delayOf api resp) eqn:E; [|tauto].
      rewrite jitterOf_defined by lia. split; discriminate.
  - intros delay Hd. rewrite Hres in Hd. rewrite Part001_Get_result.
    destruct (0 <? Part001.delayOf api resp) eqn:E; [|discriminate].
    inversion Hd; subst delay.
    destruct (delayOf_not_tiny api resp) as [Hle|Hr];
      [apply Z.ltb_lt in E; lia|].
    rewrite jitterOf_defined by lia. eauto.
Qed.

Lemma revisions_agree_on_parsed_headers_witness :
  fst (PkgCanvas.Get warmAPI (Completed lowQuotaSpike))
  = fst (Part001.Get warmAPI (Completed lowQuotaSpike) 5).
Proof.
  apply (proj1 (revisions_agree_on_parsed_headers warmAPI lowQuotaSpike 5 eq_refl)).
Defined.

(** The delays of a ceiling whose half in nanoseconds leaves room for the
    jitter. *)
Lemma delayOf_bounded (api : APIManager) (resp : Response) :
  1 <= maxRateLimit api <= 73786 ->
  Part001.delayOf api resp = 0 \/
  125000000 <= Part001.delayOf api resp <= 36893000000000.
Proof.
  intros Hmax. unfold Part001.delayOf, spike, tooMany.
  destruct (costSpike _ _); [right; vm_compute; split; discriminate|].
  destruct (_ =? _); [right; vm_compute; split; discriminate|].
  match goal with |- context [ladder ?a 0] =>
    assert (Hm : maxRateLimit a = maxRateLimit api)
      by (rewrite observe_maxRateLimit; reflexivity);
    destruct (ladder_cases a) as [H|[H|[H|H]]]; rewrite H; try rewrite Hm
  end.
  - right. destruct (tier_value (maxRateLimit api) 2) as [Hk Hb]; [lia|auto|].
    unfold Second in *. lia.
  - right. destruct (tier_value (maxRateLimit api) 4) as [Hk Hb]; [lia|auto|].
    unfold Second in *. lia.
  - right. destruct (tier_value (maxRateLimit api) 8) as [Hk Hb]; [lia|auto|].
    unfold Second in *. lia.
  - left. reflexivity.
Qed.

(** X7. What [Get] of [unnamed/part_001] sleeps is never less than the
    delay it computed: it is the delay and a whole number of milliseconds,
    as many as the draw below a quarter of the delay in nanoseconds. Shown
    for the ceilings (up to 73786) whose delays leave room for the jitter
    in 64 bits. *)
Theorem sleep_is_delay_and_milliseconds (api : APIManager) (resp : Response)
        (raw slept : Z) :
  1 <= maxRateLimit api <= 73786 ->
  snd (Part001.Get api (Completed resp) raw) = Returned resp (Some slept) ->
  let delay := Part001.delayOf api resp in
  0 < delay /\
  slept = delay + (raw mod (delay / 4)) * 1000000 /\
  delay <= slept < delay + (delay / 4) * 1000000.
Proof.
  intros Hmax Hres delay. rewrite Part001_Get_result in Hres. fold delay in Hres.
  destruct (delayOf_bounded api resp Hmax) as [H0|Hd]; fold delay in H0 || fold delay in Hd.
  - rewrite H0 in Hres. discriminate.
  - destruct (0 <? delay) eqn:E; [|discriminate].
    destruct (jitter_value delay raw) as [Hj Hr]; [lia|].
    rewrite Hj in Hres. inversion Hres as [Hs].
    assert (Hq : delay / 4 <= 9223250000000).
    { apply Z.div_le_upper_bound; lia. }
    unfold add64. rewrite wrap64_small by nia.
    repeat split; nia.
Qed.

Lemma sleep_is_delay_and_milliseconds_witness :
  Part001.delayOf warmAPI lowQuotaSpike <= 30007000000.
Proof.
  refine (proj1 (proj2 (proj2 (sleep_is_delay_and_milliseconds
            warmAPI lowQuotaSpike 7 30007000000 _ _)))).
  - vm_compute. split; discriminate.
  - reflexivity.
Defined.

(** X8. [Get] of [pkg/canvas/main.go] sleeps the delay itself, and only
    one of five durations: 30 seconds, 5 minutes, or the ceiling in seconds
    divided by 2, 4 or 8; otherwise it does not sleep. *)
Theorem PkgCanvas_sleeps_one_of (api : APIManager) (resp : Response) :
  1 <= maxRateLimit api <= 9223372036 ->
  snd (PkgCanvas.Get api (Completed resp)) = Returned resp None \/
  exists delay,
    snd (PkgCanvas.Get api (Completed resp)) = Returned resp (Some delay) /\
    (delay = 30 * Second \/ delay = 5 * Minute \/
     2 * delay = maxRateLimit api * Second \/
     4 * delay = maxRateLimit api * Second \/
     8 * delay = maxRateLimit api * Second).
Proof.
  intros Hmax. unfold PkgCanvas.Get. cbn zeta.
  match goal with |- context [if 0 <? ?d then _ else _] =>
    set (delay := d); destruct (0 <? delay) eqn:E; [|left; reflexivity]
  end.
  right. exists delay. split; [reflexivity|].
  apply Z.ltb_lt in E. unfold delay, spike, tooMany in *.
  destruct (costSpike _ _); [left; reflexivity|].
  destruct (_ =? _); [right; left; reflexivity|].
  match goal with |- context [ladder ?a 0] =>
    assert (Hm : maxRateLimit a = maxRateLimit api)
      by (rewrite observe_maxRateLimit; reflexivity);
    destruct (ladder_cases a) as [H|[H|[H|H]]]; rewrite H in *; try rewrite Hm in *
  end.
  - right. right. left. apply (tier_value _ 2); auto.
  - right. right. right. left. apply (tier_value _ 4); auto.
  - right. right. right. right. apply (tier_value _ 8); auto.
  - lia.
Qed.

Lemma PkgCanvas_sleeps_one_of_witness :
  snd (PkgCanvas.Get warmAPI (Completed plain10)) = Returned plain10 None \/
  exists delay,
    snd (PkgCanvas.Get warmAPI (Completed plain10)) = Returned plain10 (Some delay) /\
    (delay = 30 * Second \/ delay = 5 * Minute \/
     2 * delay = maxRateLimit warmAPI * Second \/
     4 * delay = maxRateLimit warmAPI * Second \/
     8 * delay = maxRateLimit warmAPI * Second).
Proof.
  apply (PkgCanvas_sleeps_one_of warmAPI plain10).
  vm_compute. split; discriminate.
Defined.

(** ** A service that sends no rate headers *)

Lemma halfInSecondTier_checked :
  allFrom halfInSecondTier 2 (Z.to_nat 99999) = true.
Proof. vm_compute. reflexivity. Qed.

Lemma zeroInFirstTier_checked :
  allFrom zeroInFirstTier 1 (Z.to_nat 100000) = true.
Proof. vm_compute. reflexivity. Qed.

(** X20. Each response that carries no remaining-quota header that parses
    makes [Get] of [unnamed/part_001] plan a quarter of the ceiling in
    seconds: the default of half the ceiling falls in the second tier of the
    ladder. While no cost header has parsed either, that is the delay of the
    cycle for every status but 429 (175 s for the run's ceiling of 700).
    Shown for the ceilings from 2 to 100000. *)
Theorem no_headers_quarter_delay (rateLimitMax : Z) (events : list (outcome * Z))
        (resp : Response) :
  2 <= rateLimitMax <= 100000 ->
  forallb bringsNoCost events = true ->
  snd (ParseFloat (RateLimitRemaining resp)) = true ->
  StatusCode resp <> StatusTooManyRequests ->
  Part001.delayOf (Part001.run (NewAPI rateLimitMax) events) resp
  = rateLimitMax * 250000000.
Proof.
  intros Hmax Hall Herr H429.
  rewrite zero_average_no_spike
    by (apply run_keeps_zero_average; [reflexivity | exact Hall]).
  unfold tooMany.
  apply Z.eqb_neq in H429. rewrite H429.
  set (api := Part001.run (NewAPI rateLimitMax) events).
  assert (Hm : maxRateLimit api = rateLimitMax) by apply run_maxRateLimit.
  assert (Hrem : rateLimitRemaining (fst (Part001.Get api (Completed resp) 0))
                 = float64_of_int (div64 rateLimitMax 2)).
  { rewrite (remaining_default api resp 0); rewrite ?Hm.
    - unfold div64. rewrite wrap64_small; [reflexivity|].
      assert (0 <= Z.quot rateLimitMax 2 <= rateLimitMax).
      { rewrite Z.quot_div_nonneg by lia. split.
        - apply Z.div_pos; lia.
        - apply Z.div_le_upper_bound; lia. }
      lia.
    - lia.
    - apply halfBelow_holds. lia.
    - exact Herr. }
  pose proof (allFrom_spec halfInSecondTier _ 2 halfInSecondTier_checked rateLimitMax)
    as Htier.
  rewrite Z2Nat.id in Htier by lia. specialize (Htier ltac:(lia)).
  unfold halfInSecondTier in Htier. cbn zeta in Htier.
  apply andb_prop in Htier. destruct Htier as [H1 H2].
  apply negb_true_iff in H1.
  unfold ladder. rewrite Get_maxRateLimit, Hm, Hrem, H1, H2.
  destruct (tier_value rateLimitMax 4) as [Hk _]; [lia | auto |].
  unfold Second in Hk. unfold Second. lia.
Qed.

Lemma no_headers_quarter_delay_witness :
  Part001.delayOf (Part001.run (NewAPI 700) [(Completed noHeaders, 0)]) noHeaders
  = 700 * 250000000.
Proof.
  apply (no_headers_quarter_delay 700 [(Completed noHeaders, 0)] noHeaders).
  - vm_compute. split; discriminate.
  - reflexivity.
  - reflexivity.
  - discriminate.
Defined.

(** X21. In [Get] of [pkg/canvas/main.go] a response without a
    remaining-quota header counts as a quota of zero: while the average is
    0, every such response with a status other than 429 is followed by a
    sleep of half the ceiling in seconds (350 s for the run's ceiling of
    700). Shown for the ceilings from 1 to 100000. *)
Theorem PkgCanvas_no_header_half_delay (api : APIManager) (resp : Response) :
  1 <= maxRateLimit api <= 100000 ->
  averageRateCost api = 0%float ->
  RateLimitRemaining resp = Malformed ->
  StatusCode resp <> StatusTooManyRequests ->
  rateLimitRemaining (fst (PkgCanvas.Get api (Completed resp))) = 0%float /\
  snd (PkgCanvas.Get api (Completed resp))
  = Returned resp (Some (maxRateLimit api * 500000000)).
Proof.
  intros Hmax Havg Hhdr H429.
  pose proof (allFrom_spec zeroInFirstTier _ 1 zeroInFirstTier_checked (maxRateLimit api))
    as Htier.
  rewrite Z2Nat.id in Htier by lia. specialize (Htier ltac:(lia)).
  unfold zeroInFirstTier in Htier. cbn zeta in Htier.
  apply andb_prop in Htier. destruct Htier as [H1 H2].
  assert (Hrem : rateLimitRemaining (fst (PkgCanvas.Get api (Completed resp)))
                 = 0%float).
  { rewrite PkgCanvas_Get_state, observe_rateLimitRemaining, Hhdr.
    cbn [ParseFloat fst].
    change (maxRateLimit (counted api)) with (maxRateLimit api).
    rewrite H1. reflexivity. }
  split; [exact Hrem|].
  assert (Hl : ladder (fst (PkgCanvas.Get api (Completed resp))) 0
               = maxRateLimit api * 500000000).
  { unfold ladder. rewrite Hrem.
    rewrite PkgCanvas_Get_state, observe_maxRateLimit.
    change (maxRateLimit (counted api)) with (maxRateLimit api).
    rewrite H2.
    destruct (tier_value (maxRateLimit api) 2) as [Hk _]; [lia | auto |].
    unfold Second in *. lia. }
  rewrite PkgCanvas_Get_delay, Hl, Havg.
  unfold spike, costSpike. change ((0 <? 0)%float) with false. cbn [andb].
  unfold tooMany. apply Z.eqb_neq in H429. rewrite H429.
  destruct (0 <? maxRateLimit api * 500000000) eqn:E; [reflexivity|].
  apply Z.ltb_ge in E. lia.
Qed.

Lemma PkgCanvas_no_header_half_delay_witness :
  snd (PkgCanvas.Get (NewAPI 700) (Completed noHeaders))
  = Returned noHeaders (Some (700 * 500000000)).
Proof.
  refine (proj2 (PkgCanvas_no_header_half_delay (NewAPI 700) noHeaders _ _ _ _)).
  - vm_compute. split; discriminate.
  - reflexivity.
  - reflexivity.
  - discriminate.
Defined.

(** ** The read timeout *)

(** X22. The read timeout [NewAPI] gives the HTTP client is never 30
    seconds or less: a value of 30 or less becomes 60 seconds, and any value
    above 30 is kept, the values from 31 to 59 included. *)
Theorem timeout_floor (readTimeout : Z) :
  - 2 ^ 63 <= readTimeout <= 9223372036 ->
  30 * Second < clientTimeout readTimeout /\
  (readTimeout <= 30 -> clientTimeout readTimeout = 60 * Second) /\
  (30 < readTimeout -> clientTimeout readTimeout = readTimeout * Second).
Proof.
  intros Hr. unfold clientTimeout, mul64, Second.
  destruct (readTimeout <=? 30) eqn:E.
  - apply Z.leb_le in E. rewrite wrap64_small by lia. lia.
  - apply Z.leb_gt in E. rewrite wrap64_small by lia. lia.
Qed.

Lemma timeout_floor_witness : clientTimeout 45 = 45 * Second.
Proof.
  refine (proj2 (proj2 (timeout_floor 45 _)) _).
  - vm_compute. split; discriminate.
  - reflexivity.
Defined.

End GovernorFacts.

(** * Properties of the string functions as the driver uses them *)

Module StringFacts.
Import Strings App Shapes.
Local Open Scope string_scope.

Lemma countByte_app (c : ascii) (s t : string) :
  countByte c (s ++ t) = (countByte c s + countByte c t)%nat.
Proof.
  induction s as [|a s IH]; [reflexivity|].
  simpl. rewrite IH. destruct (Ascii.eqb a c); reflexivity.
Qed.

(** A string without the separator is one piece. *)
Lemma Split_one (sep : ascii) (s : string) :
  countByte sep s = O -> Split s sep = [s].
Proof.
  induction s as [|a s IH]; intros Hc; [reflexivity|].
  simpl in *. destruct (Ascii.eqb a sep); [discriminate|].
  rewrite IH by exact Hc. reflexivity.
Qed.

(** The first separator ends the first piece. *)
Lemma Split_app_sep (sep : ascii) (s rest : string) :
  countByte sep s = O ->
  Split (s ++ String sep rest) sep = s :: Split rest sep.
Proof.
  induction s as [|a s IH]; intros Hc.
  - simpl. rewrite Ascii.eqb_refl. reflexivity.
  - simpl in *. destruct (Ascii.eqb a sep); [discriminate|].
    rewrite IH by exact Hc. reflexivity.
Qed.

(** There is one piece more than there are separators. *)
Lemma Split_length (sep : ascii) (s : string) :
  List.length (Split s sep) = S (countByte sep s).
Proof.
  induction s as [|a s IH]; [reflexivity|].
  simpl. destruct (Ascii.eqb a sep).
  - simpl. rewrite IH. reflexivity.
  - destruct (Split s sep) as [|piece pieces]; [discriminate|].
    simpl in *. exact IH.
Qed.

(** Splitting what was joined gives the pieces back. *)
Lemma Split_Join (sep : ascii) (piece : string) (pieces : list string) :
  Forall (fun p => countByte sep p = O) (piece :: pieces) ->
  Split (Join (piece :: pieces) (String sep "")) sep = piece :: pieces.
Proof.
  revert piece. induction pieces as [|next pieces IH]; intros piece Hall.
  - inversion Hall; subst. simpl. apply Split_one. assumption.
  - inversion Hall as [|? ? Hp Hrest]; subst.
    unfold Join in *.
    change (String.concat (String sep "") (piece :: next :: pieces))
      with (piece ++ String sep (String.concat (String sep "") (next :: pieces))).
    rewrite Split_app_sep by exact Hp.
    rewrite IH by exact Hrest. reflexivity.
Qed.

(** X9. The subject of a course: an SIS id that does not hold exactly
    three hyphens gives "Unknown"; one made of four parts without hyphen gives
    its third part, whatever the parts are (empty ones included). *)
Theorem subject_of_sis_id (sis a b c d : string) :
  (countByte "-" sis <> 3%nat -> subjectOf sis = "Unknown") /\
  (countByte "-" a = O -> countByte "-" b = O ->
   countByte "-" c = O -> countByte "-" d = O ->
   subjectOf (a ++ "-" ++ b ++ "-" ++ c ++ "-" ++ d) = c).
Proof.
  split.
  - intros Hn. unfold subjectOf. rewrite Split_length.
    destruct (Z.of_nat (S (countByte "-" sis)) =? 4)%Z eqn:E; [|reflexivity].
    apply Z.eqb_eq in E. lia.
  - intros Ha Hb Hc Hd. unfold subjectOf.
    change (a ++ "-" ++ b ++ "-" ++ c ++ "-" ++ d)
      with (Join [a; b; c; d] "-").
    rewrite Split_Join by (repeat constructor; assumption).
    reflexivity.
Qed.

Lemma subject_of_sis_id_witness :
  subjectOf ("6253" ++ "-" ++ "FA" ++ "-" ++ "MATH" ++ "-" ++ "101") = "MATH".
Proof.
  apply (proj2 (subject_of_sis_id "" "6253" "FA" "MATH" "101")); reflexivity.
Defined.

(** ** Trimming *)

Lemma TrimLeft_length (cutset s : string) :
  (String.length (TrimLeft s cutset) <= String.length s)%nat.
Proof.
  induction s as [|a s IH]; [apply Nat.le_refl|].
  simpl. destruct (inCutset cutset a); simpl; lia.
Qed.

(** A string that [TrimLeft] leaves as it is does not start in the cutset. *)
Lemma TrimLeft_fixed_head (cutset : string) (a : ascii) (s : string) :
  TrimLeft (String a s) cutset = String a s -> inCutset cutset a = false.
Proof.
  intros Hfix. simpl in Hfix. destruct (inCutset cutset a); [|reflexivity].
  pose proof (TrimLeft_length cutset s) as Hlen.
  rewrite Hfix in Hlen. simpl in Hlen. lia.
Qed.

(** Bytes of the cutset after a string do not survive [TrimRight]. *)
Lemma TrimRight_app_cut (cutset : string) (a : ascii) (s : string) :
  inCutset cutset a = true ->
  TrimRight (s ++ String a "") cutset = TrimRight s cutset.
Proof.
  intros Hin. induction s as [|b s IH].
  - simpl. rewrite Hin. reflexivity.
  - cbn [append TrimRight]. rewrite IH. reflexivity.
Qed.

(** Angle brackets around a string that has nothing to trim are trimmed
    away, and nothing else. *)
Lemma Trim_brackets (url : string) :
  TrimLeft url " <>" = url -> TrimRight url " <>" = url ->
  Trim ("<" ++ url ++ ">") " <>" = url.
Proof.
  intros Hl Hr. unfold Trim.
  change (TrimLeft ("<" ++ url ++ ">") " <>") with (TrimLeft (url ++ ">") " <>").
  destruct url as [|a s].
  - reflexivity.
  - pose proof (TrimLeft_fixed_head _ _ _ Hl) as Ha.
    cbn [append TrimLeft]. rewrite Ha.
    change (String a (s ++ ">")) with (String a s ++ ">").
    rewrite TrimRight_app_cut by reflexivity. exact Hr.
Qed.

(** ** Prefixes *)

Lemma prefix_app (p s : string) : String.prefix p (p ++ s) = true.
Proof.
  induction p as [|a p IH]; [destruct s; reflexivity|].
  simpl. destruct (ascii_dec a a) as [_|Hne]; [exact IH | congruence].
Qed.

Lemma dropPrefix_app (p s : string) : dropPrefix p (p ++ s) = s.
Proof.
  induction p as [|a p IH]; [destruct s; reflexivity | exact IH].
Qed.

Lemma prefix_dropPrefix (p s : string) :
  String.prefix p s = true -> p ++ dropPrefix p s = s.
Proof.
  revert s. induction p as [|a p IH]; intros s Hp.
  - destruct s; reflexivity.
  - destruct s as [|b s]; [discriminate|].
    simpl in Hp. destruct (ascii_dec a b) as [->|]; [|discriminate].
    simpl. rewrite IH by exact Hp. reflexivity.
Qed.

Lemma Contains_prefix (s sub : string) :
  String.prefix sub s = true -> Contains s sub = true.
Proof.
  intros Hp. destruct s; cbn [Contains]; rewrite Hp; reflexivity.
Qed.

(** [strings.Contains] finds a string wherever it stands. *)
Lemma Contains_app (before sub after : string) :
  Contains (before ++ sub ++ after) sub = true.
Proof.
  induction before as [|a before IH].
  - change ("" ++ sub ++ after) with (sub ++ after).
    apply Contains_prefix. apply prefix_app.
  - cbn [append Contains]. rewrite IH. apply orb_true_r.
Qed.

End StringFacts.

(** * Further properties of the audit of one course *)

Module CourseFacts.
Import Strings App Scenarios Shapes.
Local Open Scope string_scope.
Local Open Scope list_scope.

(** The faculty fields as the teachers probe decides them. *)
Lemma auditCourse_faculty (remote : Remote) (course : CanvasCourse) :
  let result := fst (auditCourse remote course) in
  let probe := getCourseTeachers remote (ID course) in
  (FacultyName result, FacultyEmail result)
  = if snd probe then ("Error", "Error")
    else if (0 <? Z.of_nat (List.length (fst probe)))%Z
    then (Join (map UserName (fst probe)) ", ", Join (map emailOf (fst probe)) ", ")
    else ("No Faculty", "No Email").
Proof.
  unfold auditCourse.
  destruct (getCourseModules remote (ID course)) as [[] []];
  destruct (getCourseAssignments remote (ID course)) as [[] []];
  destruct (getCourseTeachers remote (ID course)) as [teachers []];
  destruct (String.eqb (DefaultViewType course) "wiki");
  try destruct (getCourseFrontPage remote (ID course)) as [[] []];
  cbn [fst snd];
  destruct (0 <? Z.of_nat (List.length teachers))%Z; reflexivity.
Qed.

(** The presence fields as their probes decide them. *)
Lemma auditCourse_presence (remote : Remote) (course : CanvasCourse) :
  let result := fst (auditCourse remote course) in
  WithModules result
  = (if fst (getCourseModules remote (ID course)) then "Yes" else "No") /\
  WithAssignments result
  = (if fst (getCourseAssignments remote (ID course)) then "Yes" else "No") /\
  WithFrontPage result
  = (if String.eqb (DefaultViewType course) "wiki"
     then if fst (getCourseFrontPage remote (ID course)) then "Yes" else "No"
     else "").
Proof.
  unfold auditCourse.
  destruct (getCourseModules remote (ID course)) as [[] []];
  destruct (getCourseAssignments remote (ID course)) as [[] []];
  destruct (getCourseTeachers remote (ID course)) as [teachers []];
  destruct (String.eqb (DefaultViewType course) "wiki");
  try destruct (getCourseFrontPage remote (ID course)) as [[] []];
  cbn [fst snd];
  try destruct (0 <? Z.of_nat (List.length teachers))%Z; repeat split.
Qed.

(** What the row takes from the course itself. *)
Lemma auditCourse_identity (remote : Remote) (course : CanvasCourse) :
  let result := fst (auditCourse remote course) in
  CourseID result = ID course /\ CourseName result = Name course /\
  Subject result = subjectOf (CourseSISID course) /\ ResultFormat result = "".
Proof.
  unfold auditCourse.
  destruct (getCourseModules remote (ID course)) as [[] []];
  destruct (getCourseAssignments remote (ID course)) as [[] []];
  destruct (getCourseTeachers remote (ID course)) as [teachers []];
  destruct (String.eqb (DefaultViewType course) "wiki");
  try destruct (getCourseFrontPage remote (ID course)) as [[] []];
  cbn [fst snd];
  try destruct (0 <? Z.of_nat (List.length teachers))%Z; repeat split.
Qed.

(** X10. The probes of a course are isolated: each field of the row
    depends on the answer to its own probe only. Two services that answer
    one probe of the course alike give the same value in the field of that
    probe, whatever they answer to the others; the id, the name, the
    subject and the format do not depend on the service at all. *)
Theorem probes_are_isolated (remote remote' : Remote) (course : CanvasCourse) :
  let result := fst (auditCourse remote course) in
  let result' := fst (auditCourse remote' course) in
  (modules remote (ID course) = modules remote' (ID course) ->
   WithModules result = WithModules result') /\
  (assignments remote (ID course) = assignments remote' (ID course) ->
   WithAssignments result = WithAssignments result') /\
  (frontPage remote (ID course) = frontPage remote' (ID course) ->
   WithFrontPage result = WithFrontPage result') /\
  (teachers remote (ID course) = teachers remote' (ID course) ->
   FacultyName result = FacultyName result' /\
   FacultyEmail result = FacultyEmail result') /\
  CourseID result = CourseID result' /\ CourseName result = CourseName result' /\
  Subject result = Subject result' /\ ResultFormat result = ResultFormat result'.
Proof.
  intros result result'.
  destruct (auditCourse_presence remote course) as (Hm & Ha & Hf).
  destruct (auditCourse_presence remote' course) as (Hm' & Ha' & Hf').
  destruct (auditCourse_identity remote course) as (Hi & Hn & Hs & Hr).
  destruct (auditCourse_identity remote' course) as (Hi' & Hn' & Hs' & Hr').
  pose proof (auditCourse_faculty remote course) as Ht.
  pose proof (auditCourse_faculty remote' course) as Ht'.
  fold result in Hm, Ha, Hf, Hi, Hn, Hs, Hr, Ht.
  fold result' in Hm', Ha', Hf', Hi', Hn', Hs', Hr', Ht'.
  cbn zeta in Ht, Ht'.
  repeat split; try congruence.
  - intros Heq. rewrite Hm, Hm'. unfold getCourseModules. rewrite Heq. reflexivity.
  - intros Heq. rewrite Ha, Ha'. unfold getCourseAssignments. rewrite Heq. reflexivity.
  - intros Heq. rewrite Hf, Hf'. unfold getCourseFrontPage. rewrite Heq. reflexivity.
  - unfold getCourseTeachers in Ht, Ht'. rewrite <- H in Ht'.
    rewrite <- Ht' in Ht. congruence.
  - unfold getCourseTeachers in Ht, Ht'. rewrite <- H in Ht'.
    rewrite <- Ht' in Ht. congruence.
Qed.

Lemma probes_are_isolated_witness :
  WithAssignments (fst (auditCourse scenarioRemote scenarioCourse))
  = WithAssignments (fst (auditCourse (withoutModules scenarioRemote) scenarioCourse)).
Proof.
  apply (proj1 (proj2 (probes_are_isolated scenarioRemote
                         (withoutModules scenarioRemote) scenarioCourse))).
  reflexivity.
Defined.

(** A teacher's entry in the list of emails is never empty. *)
Lemma emailOf_not_empty (teacher : CanvasUser) : emailOf teacher <> "".
Proof.
  unfold emailOf. destruct (String.eqb (Email teacher) "") eqn:E; simpl.
  - discriminate.
  - apply String.eqb_neq. exact E.
Qed.

(** X11. The faculty fields of a row: a teachers probe that fails gives
    "Error" in both; no teacher gives "No Faculty" and "No Email"; otherwise
    the names and the emails of all the teachers joined by ", ", with as
    many emails as names and no empty entry among the emails. *)
Theorem faculty_fields (remote : Remote) (course : CanvasCourse) :
  let result := fst (auditCourse remote course) in
  let probe := getCourseTeachers remote (ID course) in
  (snd probe = true ->
   FacultyName result = "Error" /\ FacultyEmail result = "Error") /\
  (probe = ([], false) ->
   FacultyName result = "No Faculty" /\ FacultyEmail result = "No Email") /\
  (forall teacher others,
     probe = (teacher :: others, false) ->
     FacultyName result = Join (map UserName (teacher :: others)) ", " /\
     FacultyEmail result = Join (map emailOf (teacher :: others)) ", " /\
     List.length (map emailOf (teacher :: others))
     = List.length (map UserName (teacher :: others)) /\
     Forall (fun email => email <> "") (map emailOf (teacher :: others))).
Proof.
  intros result probe.
  pose proof (auditCourse_faculty remote course) as H.
  fold result in H. fold probe in H. cbn zeta in H.
  split; [|split].
  - intros Herr. rewrite Herr in H. inversion H. auto.
  - intros Hp. rewrite Hp in H. cbn in H. inversion H. auto.
  - intros teacher others Hp. rewrite Hp in H.
    cbn [fst snd] in H.
    assert (Hpos : (0 <? Z.of_nat (List.length (teacher :: others)))%Z = true).
    { apply Z.ltb_lt. cbn [List.length]. lia. }
    rewrite Hpos in H.
    split; [exact (f_equal fst H)|]. split; [exact (f_equal snd H)|]. split.
    + rewrite !length_map. reflexivity.
    + apply Forall_forall. intros email Hin.
      apply in_map_iff in Hin. destruct Hin as (t & <- & _).
      apply emailOf_not_empty.
Qed.

Lemma faculty_fields_witness :
  FacultyName (fst (auditCourse scenarioRemote scenarioCourse)) = "Ada Byron".
Proof.
  refine (proj1 (proj2 (proj2 (faculty_fields scenarioRemote scenarioCourse))
                   (mkUser 7 "Ada Byron" "" "") [] _)).
  reflexivity.
Defined.

(** The probe of modules or assignments says yes exactly for a list that
    arrives with status 200, decodes and is not empty. *)
Lemma presence_true (r : fetched (list object)) :
  fst (presence r) = true <->
  exists items link, r = Some (mkHttp 200 (Some items) link) /\ items <> [].
Proof.
  unfold presence. split.
  - destruct r as [[status decoded link]|]; [|discriminate].
    cbn [Status Decoded].
    destruct (status =? 200)%Z eqn:Hs; [|discriminate].
    apply Z.eqb_eq in Hs. subst status. cbn [negb].
    destruct decoded as [items|]; [|discriminate].
    destruct items as [|item items]; [discriminate|].
    intros _. exists (item :: items), link. split; [reflexivity | discriminate].
  - intros (items & link & -> & Hne).
    destruct items as [|item items]; [contradiction | reflexivity].
Qed.

Lemma frontPage_true (remote : Remote) (courseID : Z) :
  fst (getCourseFrontPage remote courseID) = true <->
  exists content link,
    frontPage remote courseID
    = Some (mkHttp 200 (Some (mkFrontPage (Some content))) link) /\
    content <> "".
Proof.
  unfold getCourseFrontPage. split.
  - destruct (frontPage remote courseID) as [[status decoded link]|]; [|discriminate].
    cbn [Status Decoded].
    destruct (status =? 200)%Z eqn:Hs; [|discriminate].
    apply Z.eqb_eq in Hs. subst status. cbn [negb].
    destruct decoded as [[[content|]]|]; try discriminate.
    cbn [body].
    destruct (String.eqb content "") eqn:Hc; [discriminate|]. intros _.
    exists content, link. split; [reflexivity|].
    apply String.eqb_neq. exact Hc.
  - intros (content & link & -> & Hne). cbn.
    apply String.eqb_neq in Hne. rewrite Hne. reflexivity.
Qed.

(** X12. When a presence field says "Yes": for modules and assignments,
    exactly when the list arrives with status 200, decodes and has an entry;
    for the front page, exactly when the default view is "wiki" and the page
    arrives with status 200, decodes and holds a string that is not empty
    under the key "body". Any other answer, a missing or non-textual body
    included, gives another value. *)
Theorem presence_says_Yes (remote : Remote) (course : CanvasCourse) :
  let result := fst (auditCourse remote course) in
  (WithModules result = "Yes" <->
   exists items link,
     modules remote (ID course) = Some (mkHttp 200 (Some items) link) /\
     items <> []) /\
  (WithAssignments result = "Yes" <->
   exists items link,
     assignments remote (ID course) = Some (mkHttp 200 (Some items) link) /\
     items <> []) /\
  (WithFrontPage result = "Yes" <->
   DefaultViewType course = "wiki" /\
   exists content link,
     frontPage remote (ID course)
     = Some (mkHttp 200 (Some (mkFrontPage (Some content))) link) /\
     content <> "").
Proof.
  intros result.
  destruct (auditCourse_presence remote course) as (Hm & Ha & Hf).
  fold result in Hm, Ha, Hf.
  split; [|split].
  - rewrite Hm. unfold getCourseModules. rewrite <- presence_true.
    destruct (fst (presence (modules remote (ID course)))); split;
      congruence || discriminate.
  - rewrite Ha. unfold getCourseAssignments. rewrite <- presence_true.
    destruct (fst (presence (assignments remote (ID course)))); split;
      congruence || discriminate.
  - rewrite Hf. rewrite <- frontPage_true.
    destruct (String.eqb (DefaultViewType course) "wiki") eqn:Hv.
    + apply String.eqb_eq in Hv.
      destruct (fst (getCourseFrontPage remote (ID course))); split;
        try (intros [_ H]; discriminate); try discriminate; auto.
    + apply String.eqb_neq in Hv. split; [discriminate | tauto].
Qed.

Lemma auditCourse_requestsOf (remote : Remote) (course : CanvasCourse) :
  snd (auditCourse remote course) = requestsOf course.
Proof.
  unfold auditCourse, requestsOf.
  destruct (getCourseModules remote (ID course)) as [mods err1].
  destruct (getCourseAssignments remote (ID course)) as [asngs err3].
  destruct (getCourseTeachers remote (ID course)) as [teachers err4].
  destruct (String.eqb (DefaultViewType course) "wiki").
  - destruct (getCourseFrontPage remote (ID course)) as [fp err2]. reflexivity.
  - reflexivity.
Qed.

(** X13. The requests for a course are the same whatever the service
    answers: modules, then the front page when the default view is "wiki",
    then assignments, then teachers; a probe that fails stops none of the
    probes after it. *)
Theorem requests_of_course (remote remote' : Remote) (course : CanvasCourse) :
  snd (auditCourse remote course) = requestsOf course /\
  snd (auditCourse remote' course) = snd (auditCourse remote course).
Proof.
  rewrite !auditCourse_requestsOf. split; reflexivity.
Qed.

End CourseFacts.

(** * Further properties of the course listing and of the run *)

Module ListingFacts.
Import Strings App Scenarios Shapes StringFacts PaginationFacts.
Local Open Scope string_scope.
Local Open Scope list_scope.

(** A page that cannot be used ends the listing with an error. *)
Lemma pageLoop_failing baseURL bad rest ep courses :
  failingPage bad = true ->
  CmdApp.pageLoop baseURL (bad :: rest) ep courses = ListingError.
Proof.
  intros Hbad. destruct bad as [[status decoded link]|]; [|reflexivity].
  cbn [failingPage Status Decoded] in Hbad.
  cbn [CmdApp.pageLoop Status Decoded].
  destruct (negb (status =? 200)%Z); [reflexivity|].
  destruct decoded; [discriminate | reflexivity].
Qed.

Lemma goodPage_or_failing (page : fetched (list CanvasCourse)) :
  failingPage page = true \/
  exists items link, page = CmdApp.goodPage (items, link).
Proof.
  destruct page as [[status decoded link]|]; [|left; reflexivity].
  cbn [failingPage Status Decoded].
  destruct (status =? 200)%Z eqn:Hs; [|left; reflexivity].
  apply Z.eqb_eq in Hs. subst status.
  destruct decoded as [items|]; [|left; reflexivity].
  right. exists items, link. reflexivity.
Qed.

Lemma pageLoop_Error_inv baseURL pages :
  forall ep courses,
    CmdApp.pageLoop baseURL pages ep courses = ListingError ->
    exists before bad rest,
      pages = map CmdApp.goodPage before ++ bad :: rest /\
      Forall (fun page => CmdApp.continuation baseURL (snd page) <> "") before /\
      failingPage bad = true.
Proof.
  induction pages as [|page pages IH]; intros ep courses Hrun; [discriminate|].
  destruct (goodPage_or_failing page) as [Hbad|(items & link & ->)].
  - exists [], page, pages. auto.
  - rewrite pageLoop_goodPage in Hrun. cbn [fst snd] in Hrun.
    destruct (String.eqb (CmdApp.continuation baseURL link) "") eqn:Hc;
      [discriminate|].
    apply String.eqb_neq in Hc.
    destruct (IH _ _ Hrun) as (before & bad & rest & Hp & Hb & Hf).
    exists ((items, link) :: before), bad, rest.
    rewrite Hp. repeat split; auto.
Qed.

Lemma pageLoop_Next_inv baseURL pages :
  forall ep courses ep' listed,
    CmdApp.pageLoop baseURL pages ep courses = NextRequest ep' listed ->
    exists before,
      pages = map CmdApp.goodPage before /\
      Forall (fun page => CmdApp.continuation baseURL (snd page) <> "") before /\
      ep' = CmdApp.lastContinuation baseURL before ep /\
      listed = courses ++ List.concat (map fst before).
Proof.
  induction pages as [|page pages IH]; intros ep courses ep' listed Hrun.
  - inversion Hrun; subst. exists []. rewrite app_nil_r. auto.
  - destruct (goodPage_or_failing page) as [Hbad|(items & link & ->)].
    + rewrite pageLoop_failing in Hrun by exact Hbad. discriminate.
    + rewrite pageLoop_goodPage in Hrun. cbn [fst snd] in Hrun.
      destruct (String.eqb (CmdApp.continuation baseURL link) "") eqn:Hc;
        [discriminate|].
      apply String.eqb_neq in Hc.
      destruct (IH _ _ _ _ Hrun) as (before & Hp & Hb & He & Hl).
      exists ((items, link) :: before). rewrite Hp, He, Hl.
      cbn [map List.concat fst]. rewrite <- app_assoc. repeat split; auto.
Qed.

(** When the listing fails [main] writes no file and issues no probe. *)
Lemma main_Aborted baseURL remote :
  CmdApp.getCourses baseURL (coursePages remote) "6253-" = ListingError ->
  CmdApp.main baseURL remote = CmdApp.Aborted.
Proof.
  intros Hlist. unfold CmdApp.main. rewrite Hlist. reflexivity.
Qed.

(** X14. The listing of [getCourses] of [cmd/app/main.go] fails exactly
    when, after pages that each name a continuation, a page of the course
    list fails: no response, a status other than 200, or a body that does
    not decode. What the earlier pages held is not reported, and [main] then
    gives up without a file and without a probe. *)
Theorem listing_fails_on_failing_page (baseURL search : string) (remote : Remote) :
  (CmdApp.getCourses baseURL (coursePages remote) search = ListingError <->
   exists before bad rest,
     coursePages remote = map CmdApp.goodPage before ++ bad :: rest /\
     Forall (fun page => CmdApp.continuation baseURL (snd page) <> "") before /\
     failingPage bad = true) /\
  (CmdApp.getCourses baseURL (coursePages remote) "6253-" = ListingError ->
   CmdApp.main baseURL remote = CmdApp.Aborted).
Proof.
  split; [|apply main_Aborted].
  unfold CmdApp.getCourses. split.
  - apply pageLoop_Error_inv.
  - intros (before & bad & rest & Hp & Hb & Hf). rewrite Hp.
    rewrite pageLoop_follows by exact Hb. apply pageLoop_failing. exact Hf.
Qed.

Lemma listing_fails_on_failing_page_witness :
  CmdApp.main testBase lostPageRemote = CmdApp.Aborted.
Proof.
  apply (proj2 (listing_fails_on_failing_page testBase "6253-" lostPageRemote)).
  reflexivity.
Defined.

(** X15. The listing asks for a further page exactly when every page it
    was given arrived, decoded and named a continuation; the request then
    goes to the continuation of the last page, and the items so far are
    those of all the pages in order. *)
Theorem listing_asks_for_more (baseURL search : string)
        (pages : list (fetched (list CanvasCourse))) (ep : string)
        (listed : list CanvasCourse) :
  CmdApp.getCourses baseURL pages search = NextRequest ep listed <->
  exists before,
    pages = map CmdApp.goodPage before /\
    Forall (fun page => CmdApp.continuation baseURL (snd page) <> "") before /\
    ep = CmdApp.lastContinuation baseURL before (firstEndpoint search) /\
    listed = List.concat (map fst before).
Proof.
  unfold CmdApp.getCourses. split.
  - intros Hrun. destruct (pageLoop_Next_inv _ _ _ _ _ _ Hrun) as (before & H).
    exists before. exact H.
  - intros (before & -> & Hb & -> & ->).
    rewrite <- (app_nil_r (map CmdApp.goodPage before)).
    rewrite pageLoop_follows by exact Hb. reflexivity.
Qed.

(** ** The continuation read off a link header *)

Lemma append_assoc3 (a b c : string) : ((a ++ b) ++ c = a ++ b ++ c)%string.
Proof.
  induction a as [|x a IH]; [reflexivity|]. simpl. rewrite IH. reflexivity.
Qed.

Lemma append_empty_r (a : string) : (a ++ "" = a)%string.
Proof.
  induction a as [|x a IH]; [reflexivity|]. simpl. rewrite IH. reflexivity.
Qed.

Lemma nextSegment_Contains (url : string) :
  Contains (nextSegment url) relNext = true.
Proof.
  unfold nextSegment.
  replace ("<" ++ url ++ ">; " ++ relNext)%string
    with (("<" ++ url ++ ">; ") ++ relNext ++ "")%string.
  - apply Contains_app.
  - rewrite append_empty_r. cbn [append]. rewrite append_assoc3. reflexivity.
Qed.

Lemma nextSegment_no_comma (url : string) :
  countByte "," url = O -> countByte "," (nextSegment url) = O.
Proof.
  intros Hc. unfold nextSegment. cbn [append countByte Ascii.eqb].
  rewrite countByte_app, Hc. reflexivity.
Qed.

Lemma nextSegment_linkTarget (url : string) :
  countByte ";" url = O ->
  TrimLeft url " <>" = url -> TrimRight url " <>" = url ->
  linkTarget (nextSegment url) = url.
Proof.
  intros Hc Hl Hr. unfold linkTarget, nextSegment.
  replace ("<" ++ url ++ ">; " ++ relNext)%string
    with (("<" ++ url ++ ">") ++ String ";" (" " ++ relNext))%string.
  - rewrite Split_app_sep.
    + cbn [hd]. apply Trim_brackets; assumption.
    + cbn [append countByte Ascii.eqb]. rewrite countByte_app, Hc. reflexivity.
  - cbn [append]. rewrite append_assoc3. reflexivity.
Qed.

Lemma find_skips {A : Type} (f : A -> bool) (before : list A) (x : A) (after : list A) :
  Forall (fun y => f y = false) before -> f x = true ->
  find f (before ++ x :: after) = Some x.
Proof.
  intros Hb Hx. induction Hb as [|y before Hy _ IH].
  - simpl. rewrite Hx. reflexivity.
  - simpl. rewrite Hy. exact IH.
Qed.

(** X16. The continuation read off a link header: when the header is a
    comma-separated list of segments, the segment [<url>; rel="next"] stands
    after segments that do not contain [rel="next"], and the URL holds no
    comma, no semicolon and nothing to trim at its ends, the continuation is
    the URL without the base URL in front; so the base URL and the
    continuation together, which is what [Get] requests, are the advertised
    URL again whenever that URL starts with the base URL. *)
Theorem continuation_of_link (baseURL url : string) (earlier later : list string) :
  countByte "," url = O -> countByte ";" url = O ->
  TrimLeft url " <>" = url -> TrimRight url " <>" = url ->
  Forall (fun part => countByte "," part = O) (earlier ++ later) ->
  Forall (fun part => Contains part relNext = false) earlier ->
  let link := Join (earlier ++ nextSegment url :: later) "," in
  CmdApp.continuation baseURL link = fst (CutPrefix url baseURL) /\
  (HasPrefix url baseURL = true ->
   (baseURL ++ CmdApp.continuation baseURL link)%string = url).
Proof.
  intros Hcomma Hsemi Hl Hr Hparts Hearlier link.
  assert (Hall : Forall (fun part => countByte "," part = O)
                        (earlier ++ nextSegment url :: later)).
  { apply Forall_app in Hparts. destruct Hparts as [He Hla].
    apply Forall_app. split; [exact He|].
    constructor; [apply nextSegment_no_comma; exact Hcomma | exact Hla]. }
  assert (Hsplit : Split link "," = earlier ++ nextSegment url :: later).
  { unfold link. destruct (earlier ++ nextSegment url :: later) as [|p ps] eqn:E.
    - destruct earlier; discriminate.
    - apply Split_Join. exact Hall. }
  assert (Hne : String.eqb link "" = false).
  { apply String.eqb_neq. intros Hempty. rewrite Hempty in Hsplit.
    cbn [Split] in Hsplit.
    assert (Hin : In (nextSegment url) [""%string]).
    { rewrite Hsplit. apply in_or_app. right. left. reflexivity. }
    destruct Hin as [Hin|[]]. unfold nextSegment in Hin. discriminate. }
  assert (Hcont : CmdApp.continuation baseURL link = fst (CutPrefix url baseURL)).
  { rewrite continuation_firstNext, Hne. unfold CmdApp.firstNext.
    rewrite Hsplit.
    rewrite (find_skips _ earlier (nextSegment url) later Hearlier
               (nextSegment_Contains url)).
    rewrite nextSegment_linkTarget by assumption. reflexivity. }
  split; [exact Hcont|].
  intros Hp. rewrite Hcont. unfold CutPrefix. rewrite Hp. cbn [fst].
  apply prefix_dropPrefix. exact Hp.
Qed.

Lemma continuation_of_link_witness :
  CmdApp.continuation testBase
    (Join (["<https://canvas.test/api/v1/accounts/1/courses?page=1>; rel=current"]
           ++ nextSegment "https://canvas.test/api/v1/accounts/1/courses?page=2"
           :: ["<https://canvas.test/api/v1/accounts/1/courses?page=9>; rel=last"])
          ",")
  = "accounts/1/courses?page=2".
Proof.
  refine (proj1 (continuation_of_link testBase
            "https://canvas.test/api/v1/accounts/1/courses?page=2"
            ["<https://canvas.test/api/v1/accounts/1/courses?page=1>; rel=current"]
            ["<https://canvas.test/api/v1/accounts/1/courses?page=9>; rel=last"]
            _ _ _ _ _ _)); try reflexivity.
  - repeat constructor.
  - repeat constructor.
Defined.

(** ** The earlier revision of the driver *)

Lemma scanParts_last (parts : list string) (part : string) :
  forall ep next,
    Part002.scanParts (parts ++ [part]) ep next
    = if Contains part relNext then (linkTarget part, true)
      else (fst (Part002.scanParts parts ep next), false).
Proof.
  induction parts as [|p parts IH]; intros ep next.
  - simpl. destruct (Contains part relNext); reflexivity.
  - cbn [app Part002.scanParts].
    destruct (Contains p relNext); rewrite IH; reflexivity.
Qed.

Lemma Split_not_nil (s : string) (sep : ascii) : Split s sep <> [].
Proof.
  intros H. pose proof (Split_length sep s) as Hl. rewrite H in Hl. discriminate.
Qed.

(** X17. In [getCourses] of [unnamed/part_002] the loop over the segments
    does not stop at the next one: the listing goes on after a page only when
    the last segment of its link header contains [rel="next"], and then to
    the target of that segment as it stands (the base URL is not removed);
    any other last segment ends the listing with the pages so far. *)
Theorem Part002_follows_a_last_next (items : list CanvasCourse) (link : string)
        (rest : list (fetched (list CanvasCourse))) (ep : string)
        (courses : list CanvasCourse) :
  link <> "" ->
  Part002.pageLoop (CmdApp.goodPage (items, link) :: rest) ep courses
  = if Contains (last (Split link ",") "") relNext
    then Part002.pageLoop rest (linkTarget (last (Split link ",") ""))
                          (courses ++ items)
    else Listed (courses ++ items).
Proof.
  intros Hne. apply String.eqb_neq in Hne.
  cbn [Part002.pageLoop CmdApp.goodPage Status Decoded Link fst snd].
  change (negb (200 =? 200)%Z) with false. cbn iota. rewrite Hne.
  rewrite (app_removelast_last "" (Split_not_nil link ",")) at 1.
  rewrite scanParts_last.
  destruct (Contains (last (Split link ",") "") relNext); reflexivity.
Qed.

Lemma Part002_follows_a_last_next_witness :
  Part002.pageLoop (CmdApp.goodPage ([courseA], canvasLink) :: []) "" []
  = Listed [courseA].
Proof.
  refine (eq_trans (Part002_follows_a_last_next [courseA] canvasLink [] "" [] _) _).
  - discriminate.
  - reflexivity.
Defined.

End ListingFacts.

(** * Further properties of the report *)

Module RunFacts.
Import Strings App Scenarios Shapes ReportFacts CourseFacts.
Local Open Scope string_scope.
Local Open Scope list_scope.

Lemma requestsOf_length (course : CanvasCourse) :
  List.length (requestsOf course)
  = (3 + if String.eqb (DefaultViewType course) "wiki" then 1 else 0)%nat.
Proof.
  unfold requestsOf. destruct (String.eqb (DefaultViewType course) "wiki"); reflexivity.
Qed.

Lemma flat_map_requests_length (courses : list CanvasCourse) :
  List.length (flat_map requestsOf courses)
  = (3 * List.length courses
     + List.length (filter (fun course => String.eqb (DefaultViewType course) "wiki")
                           courses))%nat.
Proof.
  induction courses as [|course courses IH]; [reflexivity|].
  cbn [flat_map filter]. rewrite length_app, IH, requestsOf_length.
  destruct (String.eqb (DefaultViewType course) "wiki"); cbn [List.length]; lia.
Qed.

(** X18. What a run of [main] of [cmd/app/main.go] costs and writes: when
    the listing gives [courses], the file holds the header and one record for
    each selected course, and the probes are three requests for each
    selected course and a fourth for each of them whose default view is
    "wiki", in the order of the catalog, whatever the service answers. *)
Theorem run_budget (baseURL : string) (remote : Remote) (courses : list CanvasCourse) :
  CmdApp.getCourses baseURL (coursePages remote) "6253-" = Listed courses ->
  exists file results probes,
    CmdApp.main baseURL remote = CmdApp.Wrote file results probes /\
    List.length file = S (List.length (filter selected courses)) /\
    hd [] file = header /\
    probes = flat_map requestsOf (filter selected courses) /\
    List.length probes
    = (3 * List.length (filter selected courses)
       + List.length (filter (fun course => String.eqb (DefaultViewType course) "wiki")
                             (filter selected courses)))%nat.
Proof.
  intros Hlist. unfold CmdApp.main. rewrite Hlist.
  rewrite probeAll_rows. unfold courseListOf. rewrite filter_twice.
  change (fun course => HasPrefix (CourseSISID course) "6253-"
                        && String.eqb (WorkflowState course) CmdApp.workflowState)
    with selected.
  assert (Hprobes : flat_map (fun course => snd (auditCourse remote course))
                             (filter selected courses)
                    = flat_map requestsOf (filter selected courses)).
  { apply flat_map_ext. intros course. apply auditCourse_requestsOf. }
  eexists _, _, _. split; [reflexivity|].
  split; [cbn [List.length]; rewrite !length_map; reflexivity|].
  split; [reflexivity|].
  split; [exact Hprobes|].
  rewrite Hprobes. apply flat_map_requests_length.
Qed.

Lemma run_budget_witness :
  exists file results probes,
    CmdApp.main testBase threePageRemote = CmdApp.Wrote file results probes /\
    List.length file = S (List.length (filter selected [courseA; courseB; courseC])) /\
    hd [] file = header /\
    probes = flat_map requestsOf (filter selected [courseA; courseB; courseC]) /\
    List.length probes
    = (3 * List.length (filter selected [courseA; courseB; courseC])
       + List.length (filter (fun course => String.eqb (DefaultViewType course) "wiki")
                             (filter selected [courseA; courseB; courseC])))%nat.
Proof.
  apply (run_budget testBase threePageRemote). reflexivity.
Defined.

(** X19. [main] of [unnamed/part_002] never writes a row: when its listing
    gives [courses] it probes every course whose SIS id starts with "6253-"
    and whose state is "unavailable", keeps their rows in memory, and writes
    the header alone. *)
Theorem Part002_writes_no_row (remote : Remote) (courses : list CanvasCourse) :
  Part002.getCourses (coursePages remote) "6253-" = Listed courses ->
  let kept := filter (fun course =>
                        HasPrefix (CourseSISID course) "6253-"
                        && String.eqb (WorkflowState course) "unavailable")
                     courses in
  Part002.main remote
  = CmdApp.Wrote [header]
      (map (fun course => fst (auditCourse remote course)) kept)
      (flat_map requestsOf kept).
Proof.
  intros Hlist kept. unfold Part002.main. rewrite Hlist.
  rewrite probeAll_rows. unfold courseListOf. rewrite filter_twice.
  fold kept.
  change (filter (fun x => HasPrefix (CourseSISID x) "6253-"
                           && String.eqb (WorkflowState x) Part002.workflowState)
                 courses) with kept.
  replace (flat_map (fun course => snd (auditCourse remote course)) kept)
    with (flat_map requestsOf kept); [reflexivity|].
  apply flat_map_ext. intros course. symmetry. apply auditCourse_requestsOf.
Qed.

Lemma Part002_writes_no_row_witness :
  Part002.main scenarioRemote = CmdApp.Wrote [header] [] [].
Proof.
  apply (Part002_writes_no_row scenarioRemote [scenarioCourse]). reflexivity.
Defined.

End RunFacts.
